(** * django-pinpayments: the models of [pinpayments/models.py]

    A shallow embedding of the Django models that talk to the Pin Payments
    gateway, and the properties of the transaction lifecycle, of the
    save-time validation, of the customer, recipient and transfer factories
    and of the money helper.

    Python values that come out of a gateway response are kept as [json]
    values, exceptions are explicit, and each method is a computation in a
    state-and-exception monad whose state holds the in-memory object and
    the database together with a chronological trace of writes and
    requests. *)

From Stdlib Require Import ZArith QArith Qpower List String Bool Lia.
Import ListNotations.

Local Open Scope string_scope.
Local Open Scope Z_scope.
Local Set Warnings "-register-all".

(** ** Python values *)

(** What [json.loads] can produce.  [JNull] is Python's [None]; an object is
    kept as the list of its members, looked up by key. *)
Inductive json : Type :=
| JNull
| JBool (b : bool)
| JInt (n : Z)
| JFloat (literal : string)
| JStr (s : string)
| JArr (items : list json)
| JObj (members : list (string * json)).

(** The exceptions the models can raise or let through. *)
Inductive exn : Type :=
| PinError (msg : string)
| KeyError (key : string)
| IndexError
| TypeError
| AttributeError
| TransportError (detail : string).

Inductive res (A : Type) : Type :=
| Ok (a : A)
| Raise (e : exn).
Arguments Ok {A} a.
Arguments Raise {A} e.

(** ** State and exception monad

    A computation takes the state and returns its outcome with the state it
    leaves behind; on [Raise] the state is the one reached when the
    exception was raised, so the writes made before it stay. *)
Definition M (S A : Type) : Type := S -> res A * S.

Definition ret {S A} (a : A) : M S A := fun s => (Ok a, s).
Definition raise {S A} (e : exn) : M S A := fun s => (Raise e, s).
Definition bind {S A B} (m : M S A) (k : A -> M S B) : M S B :=
  fun s => match m s with
           | (Ok a, s') => k a s'
           | (Raise e, s') => (Raise e, s')
           end.
Definition get {S} : M S S := fun s => (Ok s, s).
Definition modify {S} (f : S -> S) : M S unit := fun s => (Ok tt, f s).
Definition lift {S A} (r : res A) : M S A := fun s => (r, s).

Declare Scope py_scope.
Delimit Scope py_scope with py.
Notation "x <- m ;; k" := (bind m (fun x => k))
  (at level 61, m at next level, right associativity) : py_scope.
Notation "m ;;; k" := (bind m (fun _ => k))
  (at level 61, right associativity) : py_scope.

(** ** Dictionaries, subscripts and truth values *)

Fixpoint lookup (k : string) (o : list (string * json)) : option json :=
  match o with
  | [] => None
  | (k', v) :: rest => if String.eqb k k' then Some v else lookup k rest
  end.

Definition has_key (k : string) (o : list (string * json)) : bool :=
  match lookup k o with Some _ => true | None => false end.

(** [v[k]] with a string key. *)
Definition getitem (v : json) (k : string) : res json :=
  match v with
  | JObj o => match lookup k o with
              | Some x => Ok x
              | None => Raise (KeyError k)
              end
  | _ => Raise TypeError
  end.

(** [v[0]]. *)
Definition getitem0 (v : json) : res json :=
  match v with
  | JArr (x :: _) => Ok x
  | JArr [] => Raise IndexError
  | JStr (String c _) => Ok (JStr (String c EmptyString))
  | JStr EmptyString => Raise IndexError
  | JObj _ => Raise (KeyError "0")
  | _ => Raise TypeError
  end.

(** [k in v.keys()]. *)
Definition in_keys (k : string) (v : json) : res bool :=
  match v with
  | JObj o => Ok (has_key k o)
  | _ => Raise AttributeError
  end.

(** [v.get(k, None)]. *)
Definition dict_get (v : json) (k : string) : res json :=
  match v with
  | JObj o => Ok (match lookup k o with Some x => x | None => JNull end)
  | _ => Raise AttributeError
  end.

(** Truth value of a string-or-None field. *)
Definition truthy_str (s : option string) : bool :=
  match s with
  | Some (String _ _) => true
  | _ => false
  end.

Definition nonempty (s : string) : bool :=
  match s with EmptyString => false | _ => true end.

(** ** Decimals

    A finite [decimal.Decimal]: the value is [coeff * 10 ^ expo].  Results of
    arithmetic are rounded half-even to the context precision, 28
    significant digits unless the application changes it. *)
Module Dec.

Record t : Type := mk { coeff : Z; expo : Z }.

Definition prec : Z := 28.

Definition value (d : t) : Q :=
  (inject_Z (coeff d) * inject_Z 10 ^ expo d)%Q.

(** Python's [==] between two decimals compares the values. *)
Definition eqb (a b : t) : bool :=
  let m := Z.min (expo a) (expo b) in
  coeff a * 10 ^ (expo a - m) =? coeff b * 10 ^ (expo b - m).

(** Number of digits to drop so that a non-negative coefficient fits the
    precision. *)
Fixpoint excess (fuel : nat) (c : Z) : Z :=
  match fuel with
  | O => 0
  | S f => if c <? 10 ^ prec then 0 else 1 + excess f (c / 10)
  end.

(** Rounding to the context precision, half-even; when rounding up gives
    the coefficient one digit more, its last digit, a zero, is dropped. *)
Definition fix_ (d : t) : t :=
  let a := Z.abs (coeff d) in
  if a <? 10 ^ prec then d
  else
    let k := excess (Z.to_nat (Z.log2 a)) a in
    let q := a / 10 ^ k in
    let r := a mod 10 ^ k in
    let half := 5 * 10 ^ (k - 1) in
    let q' := if (half <? r) || ((half =? r) && Z.odd q) then q + 1 else q in
    if q' <? 10 ^ prec then mk (Z.sgn (coeff d) * q') (expo d + k)
    else mk (Z.sgn (coeff d) * (q' / 10)) (expo d + k + 1).

(** Trailing zeros are removed while the exponent is below the ideal one. *)
Fixpoint strip (fuel : nat) (ideal : Z) (d : t) : t :=
  match fuel with
  | O => d
  | S f =>
      if (expo d <? ideal) && (coeff d mod 10 =? 0) && negb (coeff d =? 0)
      then strip f ideal (mk (coeff d / 10) (expo d + 1))
      else d
  end.

(** [Decimal("100.00")]. *)
Definition d100 : t := mk 10000 (-2).

(** [n / Decimal("100.00")] for an int [n]: the quotient [n * 10^-2] is
    exact; its ideal exponent is [0 - (-2) = 2]. *)
Definition int_div_d100 (n : Z) : t :=
  if n =? 0 then mk 0 2
  else fix_ (strip 4%nat 2 (mk n (-2))).

(** [d * 100] for an int factor: the exponent is kept. *)
Definition mul_100 (d : t) : t := fix_ (mk (coeff d * 100) (expo d)).

(** [int(d)]: truncation towards zero. *)
Definition to_int (d : t) : Z :=
  if 0 <=? expo d then coeff d * 10 ^ expo d
  else Z.quot (coeff d) (10 ^ (- expo d)).

End Dec.

(** ** The records of [models.py] *)

(** A [datetime]; [tzinfo] is [None] for a naive one. *)
Record datetime : Type := { stamp : Z; tzinfo : option string }.

Module CustomerToken.
Record t : Type := mk {
  id : option Z;
  user : Z;
  environment : string;
  token : string;
  active : bool;
  card_type : json;
  card_number : json;
  card_name : json
}.
End CustomerToken.

Module PinTransaction.
Record t : Type := mk {
  id : option Z;
  date : option datetime;
  environment : string;
  amount : Dec.t;
  fees : option Dec.t;
  description : option string;
  processed : bool;
  succeeded : bool;
  currency : string;
  transaction_token : json;
  card_token : option string;
  customer_token : option CustomerToken.t;
  pin_response : json;
  ip_address : string;
  email_address : string;
  card_address1 : json;
  card_address2 : json;
  card_city : json;
  card_state : json;
  card_postcode : json;
  card_country : json;
  card_number : json;
  card_type : json;
  pin_response_text : option string
}.

(** Attribute assignment, one function per assigned attribute. *)
Definition set_id (x : option Z) (r : t) : t :=
  mk x (date r) (environment r) (amount r) (fees r) (description r)
     (processed r) (succeeded r) (currency r) (transaction_token r)
     (card_token r) (customer_token r) (pin_response r) (ip_address r)
     (email_address r) (card_address1 r) (card_address2 r) (card_city r)
     (card_state r) (card_postcode r) (card_country r) (card_number r)
     (card_type r) (pin_response_text r).

Definition set_date (x : option datetime) (r : t) : t :=
  mk (id r) x (environment r) (amount r) (fees r) (description r) (processed
     r) (succeeded r) (currency r) (transaction_token r) (card_token r)
     (customer_token r) (pin_response r) (ip_address r) (email_address r)
     (card_address1 r) (card_address2 r) (card_city r) (card_state r)
     (card_postcode r) (card_country r) (card_number r) (card_type r)
     (pin_response_text r).

Definition set_environment (x : string) (r : t) : t :=
  mk (id r) (date r) x (amount r) (fees r) (description r) (processed r)
     (succeeded r) (currency r) (transaction_token r) (card_token r)
     (customer_token r) (pin_response r) (ip_address r) (email_address r)
     (card_address1 r) (card_address2 r) (card_city r) (card_state r)
     (card_postcode r) (card_country r) (card_number r) (card_type r)
     (pin_response_text r).

Definition set_processed (x : bool) (r : t) : t :=
  mk (id r) (date r) (environment r) (amount r) (fees r) (description r) x
     (succeeded r) (currency r) (transaction_token r) (card_token r)
     (customer_token r) (pin_response r) (ip_address r) (email_address r)
     (card_address1 r) (card_address2 r) (card_city r) (card_state r)
     (card_postcode r) (card_country r) (card_number r) (card_type r)
     (pin_response_text r).

Definition set_succeeded (x : bool) (r : t) : t :=
  mk (id r) (date r) (environment r) (amount r) (fees r) (description r)
     (processed r) x (currency r) (transaction_token r) (card_token r)
     (customer_token r) (pin_response r) (ip_address r) (email_address r)
     (card_address1 r) (card_address2 r) (card_city r) (card_state r)
     (card_postcode r) (card_country r) (card_number r) (card_type r)
     (pin_response_text r).

Definition set_fees (x : option Dec.t) (r : t) : t :=
  mk (id r) (date r) (environment r) (amount r) x (description r) (processed
     r) (succeeded r) (currency r) (transaction_token r) (card_token r)
     (customer_token r) (pin_response r) (ip_address r) (email_address r)
     (card_address1 r) (card_address2 r) (card_city r) (card_state r)
     (card_postcode r) (card_country r) (card_number r) (card_type r)
     (pin_response_text r).

Definition set_transaction_token (x : json) (r : t) : t :=
  mk (id r) (date r) (environment r) (amount r) (fees r) (description r)
     (processed r) (succeeded r) (currency r) x (card_token r)
     (customer_token r) (pin_response r) (ip_address r) (email_address r)
     (card_address1 r) (card_address2 r) (card_city r) (card_state r)
     (card_postcode r) (card_country r) (card_number r) (card_type r)
     (pin_response_text r).

Definition set_pin_response (x : json) (r : t) : t :=
  mk (id r) (date r) (environment r) (amount r) (fees r) (description r)
     (processed r) (succeeded r) (currency r) (transaction_token r)
     (card_token r) (customer_token r) x (ip_address r) (email_address r)
     (card_address1 r) (card_address2 r) (card_city r) (card_state r)
     (card_postcode r) (card_country r) (card_number r) (card_type r)
     (pin_response_text r).

Definition set_pin_response_text (x : option string) (r : t) : t :=
  mk (id r) (date r) (environment r) (amount r) (fees r) (description r)
     (processed r) (succeeded r) (currency r) (transaction_token r)
     (card_token r) (customer_token r) (pin_response r) (ip_address r)
     (email_address r) (card_address1 r) (card_address2 r) (card_city r)
     (card_state r) (card_postcode r) (card_country r) (card_number r)
     (card_type r) x.

Definition set_card_address1 (x : json) (r : t) : t :=
  mk (id r) (date r) (environment r) (amount r) (fees r) (description r)
     (processed r) (succeeded r) (currency r) (transaction_token r)
     (card_token r) (customer_token r) (pin_response r) (ip_address r)
     (email_address r) x (card_address2 r) (card_city r) (card_state r)
     (card_postcode r) (card_country r) (card_number r) (card_type r)
     (pin_response_text r).

Definition set_card_address2 (x : json) (r : t) : t :=
  mk (id r) (date r) (environment r) (amount r) (fees r) (description r)
     (processed r) (succeeded r) (currency r) (transaction_token r)
     (card_token r) (customer_token r) (pin_response r) (ip_address r)
     (email_address r) (card_address1 r) x (card_city r) (card_state r)
     (card_postcode r) (card_country r) (card_number r) (card_type r)
     (pin_response_text r).

Definition set_card_city (x : json) (r : t) : t :=
  mk (id r) (date r) (environment r) (amount r) (fees r) (description r)
     (processed r) (succeeded r) (currency r) (transaction_token r)
     (card_token r) (customer_token r) (pin_response r) (ip_address r)
     (email_address r) (card_address1 r) (card_address2 r) x (card_state r)
     (card_postcode r) (card_country r) (card_number r) (card_type r)
     (pin_response_text r).

Definition set_card_state (x : json) (r : t) : t :=
  mk (id r) (date r) (environment r) (amount r) (fees r) (description r)
     (processed r) (succeeded r) (currency r) (transaction_token r)
     (card_token r) (customer_token r) (pin_response r) (ip_address r)
     (email_address r) (card_address1 r) (card_address2 r) (card_city r) x
     (card_postcode r) (card_country r) (card_number r) (card_type r)
     (pin_response_text r).

Definition set_card_postcode (x : json) (r : t) : t :=
  mk (id r) (date r) (environment r) (amount r) (fees r) (description r)
     (processed r) (succeeded r) (currency r) (transaction_token r)
     (card_token r) (customer_token r) (pin_response r) (ip_address r)
     (email_address r) (card_address1 r) (card_address2 r) (card_city r)
     (card_state r) x (card_country r) (card_number r) (card_type r)
     (pin_response_text r).

Definition set_card_country (x : json) (r : t) : t :=
  mk (id r) (date r) (environment r) (amount r) (fees r) (description r)
     (processed r) (succeeded r) (currency r) (transaction_token r)
     (card_token r) (customer_token r) (pin_response r) (ip_address r)
     (email_address r) (card_address1 r) (card_address2 r) (card_city r)
     (card_state r) (card_postcode r) x (card_number r) (card_type r)
     (pin_response_text r).

Definition set_card_number (x : json) (r : t) : t :=
  mk (id r) (date r) (environment r) (amount r) (fees r) (description r)
     (processed r) (succeeded r) (currency r) (transaction_token r)
     (card_token r) (customer_token r) (pin_response r) (ip_address r)
     (email_address r) (card_address1 r) (card_address2 r) (card_city r)
     (card_state r) (card_postcode r) (card_country r) x (card_type r)
     (pin_response_text r).

Definition set_card_type (x : json) (r : t) : t :=
  mk (id r) (date r) (environment r) (amount r) (fees r) (description r)
     (processed r) (succeeded r) (currency r) (transaction_token r)
     (card_token r) (customer_token r) (pin_response r) (ip_address r)
     (email_address r) (card_address1 r) (card_address2 r) (card_city r)
     (card_state r) (card_postcode r) (card_country r) (card_number r) x
     (pin_response_text r).

End PinTransaction.

Module BankAccount.
Record t : Type := mk {
  id : option Z;
  token : json;
  bank_name : json;
  branch : json;
  name : json;
  bsb : json;
  number : json;
  environment : string
}.

Definition set_id (x : option Z) (r : t) : t :=
  mk x (token r) (bank_name r) (branch r) (name r) (bsb r) (number r)
     (environment r).
End BankAccount.

Module PinRecipient.
Record t : Type := mk {
  id : option Z;
  token : json;
  email : json;
  name : json;
  bank_account : option Z;
  environment : string
}.

Definition set_id (x : option Z) (r : t) : t :=
  mk x (token r) (email r) (name r) (bank_account r) (environment r).
End PinRecipient.

Module PinTransfer.
Record t : Type := mk {
  id : option Z;
  transfer_token : json;
  status : json;
  currency : string;
  description : json;
  amount : Z;
  recipient : option Z;
  pin_response_text : option string
}.
End PinTransfer.

(** ** The database and the trace *)

(** A table: rows under their primary key. *)
Definition table (A : Type) : Type := list (Z * A).

Fixpoint select {A} (i : Z) (rows : table A) : option A :=
  match rows with
  | [] => None
  | (j, a) :: rest => if i =? j then Some a else select i rest
  end.

(** UPDATE of the row with key [i], INSERT when there is none. *)
Fixpoint upsert {A} (i : Z) (a : A) (rows : table A) : table A :=
  match rows with
  | [] => [(i, a)]
  | (j, b) :: rest =>
      if i =? j then (i, a) :: rest else (j, b) :: upsert i a rest
  end.

(** The key an automatic primary key gets: one above the largest. *)
Definition next_id {A} (rows : table A) : Z :=
  1 + fold_right Z.max 0 (map fst rows).

Definition payload : Type := list (string * json).

(** What is observable from outside, in the order it happened. *)
Inductive event : Type :=
| SaveTransaction (row : PinTransaction.t)
| CreateBankAccount (row : BankAccount.t)
| CreateRecipient (row : PinRecipient.t)
| HttpPost (path : string) (data : payload).

Record World : Type := mkWorld {
  transactions : table PinTransaction.t;
  bank_accounts : table BankAccount.t;
  recipients : table PinRecipient.t;
  trace : list event
}.

(** The state of a method of a transaction: the object and the world. *)
Record TxnState : Type := mkTxnState {
  self : PinTransaction.t;
  world : World
}.

Definition modify_self (f : PinTransaction.t -> PinTransaction.t)
  : M TxnState unit :=
  modify (fun st => mkTxnState (f (self st)) (world st)).

Definition on_world {A} (m : M World A) : M TxnState A :=
  fun st => let (r, w) := m (world st) in (r, mkTxnState (self st) w).

Definition is_post (e : event) : bool :=
  match e with HttpPost _ _ => true | _ => false end.

(** Number of requests sent to the gateway in a trace. *)
Definition posts (tr : list event) : nat := List.length (filter is_post tr).

(** ** Settings *)

Record Settings : Type := {
  PIN_DEFAULT_ENVIRONMENT : option string;
  PIN_ENVIRONMENTS : list string;
  USE_TZ : bool;
  TIME_ZONE : string
}.

(** [getattr(settings, 'PIN_DEFAULT_ENVIRONMENT', 'test')]. *)
Definition default_environment (cfg : Settings) : string :=
  match PIN_DEFAULT_ENVIRONMENT cfg with
  | Some e => e
  | None => "test"
  end.

Definition configured (cfg : Settings) (e : string) : bool :=
  existsb (String.eqb e) (PIN_ENVIRONMENTS cfg).

(** ** The gateway client *)

Module PinEnvironment.
Record t : Type := mk { name : string }.
End PinEnvironment.

(** What [pin_post] gives back: the response text with the parsed body
    ([JNull] when the body is not JSON), or the exception of the transport. *)
Inductive reply : Type :=
| Replied (text : string) (parsed : json)
| Failed (e : exn).

Definition gateway : Type := PinEnvironment.t -> string -> payload -> reply.

(** The card object of a response, as the attributes it is copied to. *)
Record card_details : Type := {
  address_line1 : json;
  address_line2 : json;
  address_city : json;
  address_state : json;
  address_postcode : json;
  address_country : json;
  display_number : json;
  scheme : json
}.

(** ** Customers, transfers and what else the gateway sees *)

(** The user a customer token belongs to. *)
Module User.
Record t : Type := mk { id : Z; email : string }.
End User.

(** Attribute assignment on a customer token. *)
Module Customer.
Definition set_id (x : option Z) (c : CustomerToken.t) : CustomerToken.t :=
  CustomerToken.mk x (CustomerToken.user c) (CustomerToken.environment c)
    (CustomerToken.token c) (CustomerToken.active c)
    (CustomerToken.card_type c) (CustomerToken.card_number c)
    (CustomerToken.card_name c).

Definition set_environment (x : string) (c : CustomerToken.t)
  : CustomerToken.t :=
  CustomerToken.mk (CustomerToken.id c) (CustomerToken.user c) x
    (CustomerToken.token c) (CustomerToken.active c)
    (CustomerToken.card_type c) (CustomerToken.card_number c)
    (CustomerToken.card_name c).

Definition set_card_type (x : json) (c : CustomerToken.t) : CustomerToken.t :=
  CustomerToken.mk (CustomerToken.id c) (CustomerToken.user c)
    (CustomerToken.environment c) (CustomerToken.token c)
    (CustomerToken.active c) x (CustomerToken.card_number c)
    (CustomerToken.card_name c).

Definition set_card_number (x : json) (c : CustomerToken.t)
  : CustomerToken.t :=
  CustomerToken.mk (CustomerToken.id c) (CustomerToken.user c)
    (CustomerToken.environment c) (CustomerToken.token c)
    (CustomerToken.active c) (CustomerToken.card_type c) x
    (CustomerToken.card_name c).

Definition set_card_name (x : json) (c : CustomerToken.t) : CustomerToken.t :=
  CustomerToken.mk (CustomerToken.id c) (CustomerToken.user c)
    (CustomerToken.environment c) (CustomerToken.token c)
    (CustomerToken.active c) (CustomerToken.card_type c)
    (CustomerToken.card_number c) x.
End Customer.

Module Transfer.
Definition set_id (x : option Z) (t : PinTransfer.t) : PinTransfer.t :=
  PinTransfer.mk x (PinTransfer.transfer_token t) (PinTransfer.status t)
    (PinTransfer.currency t) (PinTransfer.description t)
    (PinTransfer.amount t) (PinTransfer.recipient t)
    (PinTransfer.pin_response_text t).
End Transfer.

(** The world with the tables of the customer tokens and of the transfers,
    and with the PUT requests that left, oldest first. *)
Record Ledger : Type := mkLedger {
  ledger_world : World;
  customer_tokens : table CustomerToken.t;
  pin_transfers : table PinTransfer.t;
  put_requests : list (string * payload)
}.

(** The state of a method of a customer token: the object and the ledger. *)
Record CustomerState : Type := mkCustomerState {
  this : CustomerToken.t;
  ledger : Ledger
}.

Definition modify_this (f : CustomerToken.t -> CustomerToken.t)
  : M CustomerState unit :=
  modify (fun st => mkCustomerState (f (this st)) (ledger st)).

Definition on_ledger {A} (m : M Ledger A) : M CustomerState A :=
  fun st => let (r, l) := m (ledger st) in (r, mkCustomerState (this st) l).

Definition in_world {A} (m : M World A) : M Ledger A :=
  fun l =>
    let (r, w) := m (ledger_world l) in
    (r, mkLedger w (customer_tokens l) (pin_transfers l) (put_requests l)).

(** [(before + "{index}" + after).format( *args )]: the field takes the
    positional argument of that index, and there is an [IndexError] when
    there are not that many. *)
Definition format_field (str : json -> string) (before : string) (index : nat)
  (after : string) (args : list json) : res string :=
  match nth_error args index with
  | Some v => Ok (before ++ str v ++ after)
  | None => Raise IndexError
  end.

(** ** Sample data *)

Module Sample.

Definition cfg : Settings :=
  {| PIN_DEFAULT_ENVIRONMENT := Some "test";
     PIN_ENVIRONMENTS := ["test"; "live"];
     USE_TZ := true;
     TIME_ZONE := "Australia/Sydney" |}.

Definition clock : Z := 1700000000.

Definition py_repr (v : json) : string := "?".

(** A new transaction of 10.00 AUD paid with a card token. *)
Definition txn : PinTransaction.t :=
  PinTransaction.mk None None "" (Dec.mk 1000 (-2)) (Some (Dec.mk 0 (-2)))
    (Some "Widget") false false "AUD" JNull (Some "card_abc") None JNull
    "127.0.0.1" "buyer@example.com" JNull JNull JNull JNull JNull JNull
    JNull JNull None.

(** The same in yen. *)
Definition yen : PinTransaction.t :=
  PinTransaction.mk None None "" (Dec.mk 1000 (-2)) (Some (Dec.mk 0 (-2)))
    (Some "Widget") false false "JPY" JNull (Some "card_abc") None JNull
    "127.0.0.1" "buyer@example.com" JNull JNull JNull JNull JNull JNull
    JNull JNull None.

(** A transaction without a token, and one that is processed already. *)
Definition no_token : PinTransaction.t :=
  PinTransaction.mk None None "" (Dec.mk 1000 (-2)) (Some (Dec.mk 0 (-2)))
    (Some "Widget") false false "AUD" JNull None None JNull
    "127.0.0.1" "buyer@example.com" JNull JNull JNull JNull JNull JNull
    JNull JNull None.

Definition done : PinTransaction.t :=
  PinTransaction.mk (Some 1) None "test" (Dec.mk 1000 (-2))
    (Some (Dec.mk 0 (-2))) (Some "Widget") true false "AUD" JNull
    (Some "card_abc") None (JStr "Failure.") "127.0.0.1" "buyer@example.com"
    JNull JNull JNull JNull JNull JNull JNull JNull (Some "<html>").

(** The charge request of [txn] and of [yen]. *)
Definition request (currency : string) : payload :=
  [ ("email", JStr "buyer@example.com");
    ("description", JStr "Widget");
    ("amount", JInt 1000);
    ("currency", JStr currency);
    ("ip_address", JStr "127.0.0.1");
    ("card_token", JStr "card_abc") ].

Definition empty : World := mkWorld [] [] [] [].

Definition card : list (string * json) :=
  [ ("address_line1", JStr "1 Main St");
    ("address_line2", JNull);
    ("address_city", JStr "Perth");
    ("address_state", JStr "WA");
    ("address_postcode", JStr "6000");
    ("address_country", JStr "Australia");
    ("display_number", JStr "XXXX-XXXX-XXXX-0000");
    ("scheme", JStr "visa") ].

Definition details : card_details :=
  {| address_line1 := JStr "1 Main St";
     address_line2 := JNull;
     address_city := JStr "Perth";
     address_state := JStr "WA";
     address_postcode := JStr "6000";
     address_country := JStr "Australia";
     display_number := JStr "XXXX-XXXX-XXXX-0000";
     scheme := JStr "visa" |}.

(** A success response with fees of 500. *)
Definition charge : list (string * json) :=
  [ ("response",
     JObj [ ("token", JStr "ch_123");
            ("total_fees", JInt 500);
            ("status_message", JStr "Success!");
            ("card", JObj card) ]) ].

Definition insufficient : list (string * json) :=
  [ ("error", JStr "insufficient_funds");
    ("error_description", JStr "Insufficient funds");
    ("charge_token", JStr "ch_456") ].

Definition invalid_card : list (string * json) :=
  [ ("error", JStr "invalid_resource");
    ("error_description", JStr "One or more parameters were invalid");
    ("messages",
     JArr [ JObj [ ("param", JStr "card_token");
                   ("code", JStr "card_token_invalid");
                   ("message", JStr "Card token is invalid") ] ]) ].

(** An error whose first message has no [message]. *)
Definition no_message : list (string * json) :=
  [ ("error", JStr "invalid_resource");
    ("error_description", JStr "Insufficient funds");
    ("messages", JArr [ JObj [ ("code", JStr "card_declined") ] ]) ].

(** An error whose [messages] is empty. *)
Definition no_messages : list (string * json) :=
  [ ("error", JStr "invalid_resource");
    ("error_description", JStr "One or more parameters were invalid");
    ("messages", JArr []) ].

Definition replies (text : string) (body : json) : gateway :=
  fun _ _ _ => Replied text body.

Definition times_out : gateway :=
  fun _ _ _ => Failed (TransportError "timed out").

Definition account : json :=
  JObj [ ("token", JStr "ba_1");
         ("name", JStr "Payee Pty");
         ("bsb", JStr "123456");
         ("number", JStr "XXXXXX789");
         ("bank_name", JStr "Bank");
         ("branch", JStr "Perth") ].

Definition recipient : json :=
  JObj [ ("response",
          JObj [ ("token", JStr "rp_1");
                 ("email", JStr "payee@example.com");
                 ("name", JStr "Payee");
                 ("bank_account", account) ]) ].




Definition only_yen (currency : string) : bool := String.eqb currency "JPY".

Definition transfer (currency : string) : PinTransfer.t :=
  PinTransfer.mk (Some 1) (JStr "tfer_1") (JStr "succeeded") currency
    (JStr "Payout") 1000 (Some 1) None.

(** A user, the customer token the gateway issued for their card, and the
    response that announced it. *)
Definition user : User.t := User.mk 7 "buyer@example.com".

Definition holder : CustomerToken.t :=
  CustomerToken.mk (Some 1) 7 "test" "cus_1" true (JStr "visa")
    (JStr "XXXX-XXXX-XXXX-0000") (JStr "A Buyer").

Definition customer : json :=
  JObj [ ("response",
          JObj [ ("token", JStr "cus_1");
                 ("email", JStr "buyer@example.com");
                 ("card", JObj (card ++ [("name", JStr "A Buyer")])%list) ]) ].


(** A character field keeps a string, and an integer field an int. *)
Definition char_field (v : json) : res string :=
  match v with
  | JStr s => Ok s
  | _ => Ok (py_repr v)
  end.

Definition integer_field (v : json) : res Z :=
  match v with
  | JInt n => Ok n
  | _ => Raise TypeError
  end.

Definition nothing : Ledger := mkLedger empty [] [] [].

(** A recipient of the database, and the response to a transfer of 10.00 AUD
    to them. *)
Definition payee : PinRecipient.t :=
  PinRecipient.mk (Some 1) (JStr "rp_1") (JStr "payee@example.com")
    (JStr "Payee") (Some 1) "test".

Definition payout : json :=
  JObj [ ("response",
          JObj [ ("token", JStr "tfer_1");
                 ("status", JStr "succeeded");
                 ("currency", JStr "AUD");
                 ("description", JStr "Payout");
                 ("amount", JInt 1000) ]) ].


(** A gateway that answers the requests for recipients and for transfers. *)
Definition pays : gateway :=
  fun _ path _ =>
    if String.eqb path "/recipients" then Replied "{}" recipient
    else Replied "{}" payout.

(** A success response without a token, and one whose fees are a string. *)
Definition charge_without_token : list (string * json) :=
  [ ("response", JObj [ ("total_fees", JInt 500) ]) ].

Definition charge_with_text_fees : list (string * json) :=
  [ ("response",
     JObj [ ("token", JStr "ch_123");
            ("total_fees", JStr "500");
            ("status_message", JStr "Success!");
            ("card", JObj card) ]) ].

End Sample.

(** ** The methods *)

Section Models.

Local Open Scope py_scope.

(** The Django settings, the reading of the clock, Python's [str] of a value
    that is not a string, and the gateway behind [PinEnvironment.pin_post]. *)
Variable cfg : Settings.
Variable clock : Z.
Variable py_repr : json -> string.
Variable pin_post : gateway.

(** ['{0}'.format(v)]. *)
Definition format0 (v : json) : string :=
  match v with
  | JStr s => s
  | _ => py_repr v
  end.

(** Modelled from the spec: the constructor of [PinEnvironment], which is in
    [objects.py].  An empty name stands for the configured default
    environment; a name that is not configured is a [PinError]-class
    failure. *)
Definition PinEnvironment_init (n : string) : res PinEnvironment.t :=
  let n' := if nonempty n then n else default_environment cfg in
  if configured cfg n' then Ok (PinEnvironment.mk n')
  else Raise (PinError ("Pin Environment '" ++ n' ++ "' does not exist")).

(** [pin_env.pin_post(path, data)]: the request leaves, then the reply or the
    exception of the transport comes back. *)
Definition post (env : PinEnvironment.t) (path : string) (data : payload)
  : M World (string * json) :=
  fun w =>
    let w' := mkWorld (transactions w) (bank_accounts w) (recipients w)
                      (trace w ++ [HttpPost path data]) in
    match pin_post env path data with
    | Replied text parsed => (Ok (text, parsed), w')
    | Failed e => (Raise e, w')
    end.

(** *** PinTransaction *)

(** [models.Model.save]: the row is written under the primary key of the
    object, which gets one from the table when it has none. *)
Definition model_save : M TxnState unit :=
  fun st =>
    let w := world st in
    let i := match PinTransaction.id (self st) with
             | Some i => i
             | None => next_id (transactions w)
             end in
    let row := PinTransaction.set_id (Some i) (self st) in
    (Ok tt,
     mkTxnState row
       (mkWorld (upsert i row (transactions w)) (bank_accounts w)
                (recipients w) (trace w ++ [SaveTransaction row]))).

Definition has_card (r : PinTransaction.t) : bool :=
  truthy_str (PinTransaction.card_token r).

Definition has_customer (r : PinTransaction.t) : bool :=
  match PinTransaction.customer_token r with
  | Some _ => true
  | None => false
  end.

Definition now : datetime :=
  if USE_TZ cfg then {| stamp := clock; tzinfo := Some (TIME_ZONE cfg) |}
  else {| stamp := clock; tzinfo := None |}.

(** [PinTransaction.save]. *)
Definition save : M TxnState unit :=
  st <- get ;;
  if negb (has_card (self st) || has_customer (self st))
  then raise (PinError "Must provide card_token or customer_token")
  else
  if has_card (self st) && has_customer (self st)
  then raise
         (PinError "Can only provide card_token OR customer_token, not both")
  else
  (if negb (nonempty (PinTransaction.environment (self st)))
   then modify_self (PinTransaction.set_environment (default_environment cfg))
   else ret tt) ;;;
  st <- get ;;
  if negb (configured cfg (PinTransaction.environment (self st)))
  then raise (PinError ("Pin Environment '"
                        ++ PinTransaction.environment (self st)
                        ++ "' does not exist"))
  else
  (match PinTransaction.date (self st) with
   | None => modify_self (PinTransaction.set_date (Some now))
   | Some _ => ret tt
   end) ;;;
  model_save.

(** [v / Decimal("100.00")]: an int (a bool is one) is divided, anything
    else is a [TypeError]. *)
Definition truediv_d100 (v : json) : res Dec.t :=
  match v with
  | JInt n => Ok (Dec.int_div_d100 n)
  | JBool b => Ok (Dec.int_div_d100 (if b then 1 else 0))
  | _ => Raise TypeError
  end.

(** [v[k1][k2]]. *)
Definition getitem2 (v : json) (k1 k2 : string) : res json :=
  match getitem v k1 with
  | Ok c => getitem c k2
  | Raise e => Raise e
  end.

Definition opt_str (s : option string) : json :=
  match s with
  | Some x => JStr x
  | None => JNull
  end.

(** The charge request of a transaction. *)
Definition charge_payload (r : PinTransaction.t) : res payload :=
  let base :=
    [ ("email", JStr (PinTransaction.email_address r));
      ("description", opt_str (PinTransaction.description r));
      ("amount", JInt (Dec.to_int (Dec.mul_100 (PinTransaction.amount r))));
      ("currency", JStr (PinTransaction.currency r));
      ("ip_address", JStr (PinTransaction.ip_address r)) ] in
  if has_card r
  then Ok (base ++ [("card_token", opt_str (PinTransaction.card_token r))])%list
  else match PinTransaction.customer_token r with
       | Some c =>
           Ok (base ++ [("customer_token", JStr (CustomerToken.token c))])%list
       | None => Raise AttributeError
       end.

(** The branch of a response that has an [error] key. *)
Definition interpret_error (response_json : json) : M TxnState unit :=
  has_messages <- lift (in_keys "messages" response_json) ;;
  (if has_messages : bool
   then
     messages <- lift (getitem response_json "messages") ;;
     first <- lift (getitem0 messages) ;;
     has_message <- lift (in_keys "message" first) ;;
     if has_message : bool
     then
       message <- lift (getitem first "message") ;;
       modify_self
         (PinTransaction.set_pin_response
            (JStr ("Failure: " ++ format0 message)))
     else ret tt
   else
     description <- lift (getitem response_json "error_description") ;;
     modify_self
       (PinTransaction.set_pin_response
          (JStr ("Failure: " ++ format0 description)))) ;;;
  charge_token <- lift (dict_get response_json "charge_token") ;;
  modify_self (PinTransaction.set_transaction_token charge_token).

(** The branch of a response without an [error] key. *)
Definition interpret_success (response_json : json) : M TxnState unit :=
  data <- lift (getitem response_json "response") ;;
  modify_self (PinTransaction.set_succeeded true) ;;;
  token <- lift (getitem data "token") ;;
  modify_self (PinTransaction.set_transaction_token token) ;;;
  total_fees <- lift (getitem data "total_fees") ;;
  fees <- lift (truediv_d100 total_fees) ;;
  modify_self (PinTransaction.set_fees (Some fees)) ;;;
  status_message <- lift (getitem data "status_message") ;;
  modify_self (PinTransaction.set_pin_response status_message) ;;;
  v <- lift (getitem2 data "card" "address_line1") ;;
  modify_self (PinTransaction.set_card_address1 v) ;;;
  v <- lift (getitem2 data "card" "address_line2") ;;
  modify_self (PinTransaction.set_card_address2 v) ;;;
  v <- lift (getitem2 data "card" "address_city") ;;
  modify_self (PinTransaction.set_card_city v) ;;;
  v <- lift (getitem2 data "card" "address_state") ;;
  modify_self (PinTransaction.set_card_state v) ;;;
  v <- lift (getitem2 data "card" "address_postcode") ;;
  modify_self (PinTransaction.set_card_postcode v) ;;;
  v <- lift (getitem2 data "card" "address_country") ;;
  modify_self (PinTransaction.set_card_country v) ;;;
  v <- lift (getitem2 data "card" "display_number") ;;
  modify_self (PinTransaction.set_card_number v) ;;;
  v <- lift (getitem2 data "card" "scheme") ;;
  modify_self (PinTransaction.set_card_type v).

(** What [process_transaction] does with the response once it is back. *)
Definition record_response (response : string * json) : M TxnState json :=
  modify_self (PinTransaction.set_pin_response_text (Some (fst response))) ;;;
  (match snd response with
   | JNull => modify_self (PinTransaction.set_pin_response (JStr "Failure."))
   | response_json =>
       has_error <- lift (in_keys "error" response_json) ;;
       if has_error : bool
       then interpret_error response_json
       else interpret_success response_json
   end) ;;;
  save ;;;
  st <- get ;;
  ret (PinTransaction.pin_response (self st)).

(** [PinTransaction.process_transaction]. *)
Definition process_transaction : M TxnState json :=
  st <- get ;;
  if PinTransaction.processed (self st)
  then ret JNull
  else
  modify_self (PinTransaction.set_processed true) ;;;
  save ;;;
  st <- get ;;
  pin_env <- lift (PinEnvironment_init (PinTransaction.environment (self st))) ;;
  data <- lift (charge_payload (self st)) ;;
  response <- on_world (post pin_env "/charges" data) ;;
  record_response response.

(** *** PinRecipient *)

(** [BankAccount.objects.create(...)]. *)
Definition create_bank_account (row : BankAccount.t) : M World BankAccount.t :=
  fun w =>
    let i := next_id (bank_accounts w) in
    let row' := BankAccount.set_id (Some i) row in
    (Ok row',
     mkWorld (transactions w) (upsert i row' (bank_accounts w))
             (recipients w) (trace w ++ [CreateBankAccount row'])).

(** [PinRecipient.objects.create(...)]. *)
Definition create_recipient (row : PinRecipient.t) : M World PinRecipient.t :=
  fun w =>
    let i := next_id (recipients w) in
    let row' := PinRecipient.set_id (Some i) row in
    (Ok row',
     mkWorld (transactions w) (bank_accounts w)
             (upsert i row' (recipients w))
             (trace w ++ [CreateRecipient row'])).

(** Sequencing of subscripts: the first that raises ends the evaluation. *)
Definition and_then {A B} (r : res A) (k : A -> res B) : res B :=
  match r with
  | Ok a => k a
  | Raise e => Raise e
  end.

(** The arguments of [BankAccount.objects.create], evaluated in the order
    they are written. *)
Definition bank_account_of (data : json) (environment : string)
  : res BankAccount.t :=
  and_then (getitem2 data "bank_account" "bank_name") (fun a_bank_name =>
  and_then (getitem2 data "bank_account" "branch") (fun a_branch =>
  and_then (getitem2 data "bank_account" "bsb") (fun a_bsb =>
  and_then (getitem2 data "bank_account" "name") (fun a_name =>
  and_then (getitem2 data "bank_account" "number") (fun a_number =>
  and_then (getitem2 data "bank_account" "token") (fun a_token =>
  Ok (BankAccount.mk None a_token a_bank_name a_branch a_name a_bsb
                     a_number environment))))))).

(** The arguments of [cls.objects.create]. *)
Definition recipient_of (data : json) (bank_account : BankAccount.t)
  (environment : string) : res PinRecipient.t :=
  and_then (getitem data "token") (fun r_token =>
  and_then (getitem data "email") (fun r_email =>
  and_then (getitem data "name") (fun r_name =>
  Ok (PinRecipient.mk None r_token r_email r_name
                      (BankAccount.id bank_account) environment)))).

(** The request of [create_with_bank_account]. *)
Definition recipient_payload (email account_name bsb number name : json)
  : payload :=
  [ ("email", email);
    ("name", name);
    ("bank_account[name]", account_name);
    ("bank_account[bsb]", bsb);
    ("bank_account[number]", number) ].

(** [PinRecipient.create_with_bank_account]. *)
Definition create_with_bank_account
  (email account_name bsb number name : json) : M World PinRecipient.t :=
  pin_env <- lift (PinEnvironment_init "") ;;
  let data := recipient_payload email account_name bsb number name in
  response <- post pin_env "/recipients" data ;;
  data <- lift (getitem (snd response) "response") ;;
  row <- lift (bank_account_of data (PinEnvironment.name pin_env)) ;;
  bank_account <- create_bank_account row ;;
  row <- lift (recipient_of data bank_account (PinEnvironment.name pin_env)) ;;
  create_recipient row.

(** *** PinTransfer *)

(** A Python number: an int or a decimal. *)
Inductive number : Type :=
| Int (n : Z)
| Decimal (d : Dec.t).

Definition number_value (x : number) : Q :=
  match x with
  | Int n => inject_Z n
  | Decimal d => Dec.value d
  end.

(** The currencies without a minor unit. *)
Variable zero_decimal : string -> bool.

(** Modelled from the spec: [get_value] of [utils.py].  A zero-decimal
    currency returns the integer unchanged; every other currency divides by
    100 and formats to two decimal places. *)
Definition get_value (amount : Z) (currency : string) : number :=
  if zero_decimal currency then Int amount
  else Decimal (Dec.mk amount (-2)).

(** The property [PinTransfer.value]. *)
Definition value (t : PinTransfer.t) : number :=
  get_value (PinTransfer.amount t) (PinTransfer.currency t).

(** *** What [save] accepts and what it writes *)

(** The environment [save] settles on. *)
Definition resolved_environment (r : PinTransaction.t) : string :=
  if nonempty (PinTransaction.environment r)
  then PinTransaction.environment r
  else default_environment cfg.

(** Exactly one of the two tokens, and a configured environment. *)
Definition save_accepts (r : PinTransaction.t) : bool :=
  xorb (has_card r) (has_customer r)
  && configured cfg (resolved_environment r).

(** The object once [save] has filled in the environment and the date. *)
Definition with_defaults (r : PinTransaction.t) : PinTransaction.t :=
  let r1 := if nonempty (PinTransaction.environment r) then r
            else PinTransaction.set_environment (default_environment cfg) r in
  match PinTransaction.date r1 with
  | None => PinTransaction.set_date (Some now) r1
  | Some _ => r1
  end.

Definition row_id (r : PinTransaction.t) (w : World) : Z :=
  match PinTransaction.id r with
  | Some i => i
  | None => next_id (transactions w)
  end.

(** The row [save] writes for [r] in [w], and the world after it. *)
Definition written (r : PinTransaction.t) (w : World) : PinTransaction.t :=
  PinTransaction.set_id (Some (row_id r w)) (with_defaults r).

Definition commit (r : PinTransaction.t) (w : World) : World :=
  mkWorld (upsert (row_id r w) (written r w) (transactions w))
          (bank_accounts w) (recipients w)
          (trace w ++ [SaveTransaction (written r w)]).

(** An object that [save] has already written: it has its key, its date and
    its environment. *)
Definition stored (r : PinTransaction.t) : Prop :=
  (exists i, PinTransaction.id r = Some i)
  /\ (exists d, PinTransaction.date r = Some d)
  /\ resolved_environment r = PinTransaction.environment r.

(** The world once a request has left. *)
Definition sent (path : string) (data : payload) (w : World) : World :=
  mkWorld (transactions w) (bank_accounts w) (recipients w)
          (trace w ++ [HttpPost path data]).

(** The row written by the first [save] of [process_transaction], and the
    world in which the response comes back. *)
Definition submitted (r : PinTransaction.t) (w : World) : PinTransaction.t :=
  written (PinTransaction.set_processed true r) w.

Definition awaiting (r : PinTransaction.t) (w : World) (data : payload)
  : World :=
  sent "/charges" data (commit (PinTransaction.set_processed true r) w).

(** The gateway's answer to the charge of [r]. *)
Definition charge_reply (r : PinTransaction.t) (data : payload) : reply :=
  pin_post (PinEnvironment.mk (resolved_environment r)) "/charges" data.

(** The trace goes on from [base] without a further request. *)
Definition follows (base : list event) (st : TxnState) : Prop :=
  exists rest,
    trace (world st) = (base ++ rest)%list /\ posts rest = 0%nat.

(** The interpretation of a response that is a JSON object. *)
Definition interpret (o : list (string * json)) : M TxnState unit :=
  if has_key "error" o then interpret_error (JObj o)
  else interpret_success (JObj o).

(** [response_json.get('charge_token', None)]. *)
Definition charge_token_of (o : list (string * json)) : json :=
  match lookup "charge_token" o with
  | Some x => x
  | None => JNull
  end.

(** The object when the response is back: the written row with the response
    text assigned. *)
Definition answered (r : PinTransaction.t) (w : World) (text : string)
  : PinTransaction.t :=
  PinTransaction.set_pin_response_text (Some text) (submitted r w).

(** The assignments [f] of an interpretation leave alone what [save] looks
    at. *)
Definition harmless (f : PinTransaction.t -> PinTransaction.t) : Prop :=
  forall x,
    PinTransaction.id (f x) = PinTransaction.id x
    /\ PinTransaction.date (f x) = PinTransaction.date x
    /\ PinTransaction.environment (f x) = PinTransaction.environment x
    /\ PinTransaction.card_token (f x) = PinTransaction.card_token x
    /\ PinTransaction.customer_token (f x) = PinTransaction.customer_token x.

(** [c] is what the eight keys of the card object [card] hold. *)
Definition card_holds (card : list (string * json)) (c : card_details)
  : Prop :=
  lookup "address_line1" card = Some (address_line1 c)
  /\ lookup "address_line2" card = Some (address_line2 c)
  /\ lookup "address_city" card = Some (address_city c)
  /\ lookup "address_state" card = Some (address_state c)
  /\ lookup "address_postcode" card = Some (address_postcode c)
  /\ lookup "address_country" card = Some (address_country c)
  /\ lookup "display_number" card = Some (display_number c)
  /\ lookup "scheme" card = Some (scheme c).

(** [o] is a success response: no [error], and a [response] object with the
    token, the fees as an int, the status message and the card. *)
Definition charged (o : list (string * json)) (token : json) (total_fees : Z)
  (status_message : json) (c : card_details) : Prop :=
  has_key "error" o = false
  /\ exists data card,
       lookup "response" o = Some (JObj data)
       /\ lookup "token" data = Some token
       /\ lookup "total_fees" data = Some (JInt total_fees)
       /\ lookup "status_message" data = Some status_message
       /\ lookup "card" data = Some (JObj card)
       /\ card_holds card c.

(** The assignments of the success branch. *)
Definition approve (token : json) (total_fees : Z) (status_message : json)
  (c : card_details) (x : PinTransaction.t) : PinTransaction.t :=
  PinTransaction.set_card_type (scheme c)
    (PinTransaction.set_card_number (display_number c)
       (PinTransaction.set_card_country (address_country c)
          (PinTransaction.set_card_postcode (address_postcode c)
             (PinTransaction.set_card_state (address_state c)
                (PinTransaction.set_card_city (address_city c)
                   (PinTransaction.set_card_address2 (address_line2 c)
                      (PinTransaction.set_card_address1 (address_line1 c)
                         (PinTransaction.set_pin_response status_message
                            (PinTransaction.set_fees
                               (Some (Dec.int_div_d100 total_fees))
                               (PinTransaction.set_transaction_token token
                                  (PinTransaction.set_succeeded true
                                     x))))))))))).

(** *** CustomerToken *)

(** The gateway behind [PinEnvironment.pin_put]. *)
Variable pin_put : gateway.

(** What Django keeps of a value assigned to a [CharField] and to an
    [IntegerField] when the row is written; the models rely on it for the
    values they take from a response. *)
Variable char_field : json -> res string.
Variable integer_field : json -> res Z.

(** [pin_env.pin_put(path, data)]. *)
Definition put (env : PinEnvironment.t) (path : string) (data : payload)
  : M Ledger (string * json) :=
  fun l =>
    let l' := mkLedger (ledger_world l) (customer_tokens l) (pin_transfers l)
                       (put_requests l ++ [(path, data)]) in
    match pin_put env path data with
    | Replied text parsed => (Ok (text, parsed), l')
    | Failed e => (Raise e, l')
    end.

(** [models.Model.save] of a customer token. *)
Definition customer_model_save : M CustomerState unit :=
  fun st =>
    let l := ledger st in
    let i := match CustomerToken.id (this st) with
             | Some i => i
             | None => next_id (customer_tokens l)
             end in
    let row := Customer.set_id (Some i) (this st) in
    (Ok tt,
     mkCustomerState row
       (mkLedger (ledger_world l) (upsert i row (customer_tokens l))
                 (pin_transfers l) (put_requests l))).

(** [CustomerToken.save]. *)
Definition customer_save : M CustomerState unit :=
  st <- get ;;
  (if negb (nonempty (CustomerToken.environment (this st)))
   then modify_this (Customer.set_environment (default_environment cfg))
   else ret tt) ;;;
  customer_model_save.

(** [CustomerToken.update_card]. *)
Definition update_card (card_token : json) : M CustomerState unit :=
  st <- get ;;
  pin_env <- lift (PinEnvironment_init (CustomerToken.environment (this st))) ;;
  let data := [("card_token", card_token)] in
  url_tail <- lift (format_field format0 "/customers/" 1 ""
                      [JStr (CustomerToken.token (this st))]) ;;
  response <- on_ledger (put pin_env url_tail data) ;;
  data <- lift (getitem (snd response) "response") ;;
  v <- lift (getitem2 data "card" "display_number") ;;
  modify_this (Customer.set_card_number v) ;;;
  v <- lift (getitem2 data "card" "scheme") ;;
  modify_this (Customer.set_card_type v) ;;;
  v <- lift (getitem2 data "card" "name") ;;
  modify_this (Customer.set_card_name v) ;;;
  customer_save.

(** [CustomerToken.new_card_token]. *)
Definition new_card_token (card_token : json) : M CustomerState bool :=
  update_card card_token ;;;
  ret true.




(** *** PinTransfer.send_new *)

(** The arguments of [PinTransfer.objects.create]; the currency goes into a
    [CharField] and the amount into an [IntegerField]. *)
Definition transfer_of (data : json) (recipient : PinRecipient.t)
  (text : string) : res PinTransfer.t :=
  and_then (getitem data "token") (fun a_token =>
  and_then (getitem data "status") (fun a_status =>
  and_then (getitem data "currency") (fun a_currency =>
  and_then (getitem data "description") (fun a_description =>
  and_then (getitem data "amount") (fun a_amount =>
  and_then (char_field a_currency) (fun currency =>
  and_then (integer_field a_amount) (fun amount =>
  Ok (PinTransfer.mk None a_token a_status currency a_description amount
                     (PinRecipient.id recipient) (Some text))))))))).

(** [PinTransfer.objects.create(...)]. *)
Definition create_transfer (row : PinTransfer.t) : M Ledger PinTransfer.t :=
  fun l =>
    let i := next_id (pin_transfers l) in
    let row' := Transfer.set_id (Some i) row in
    (Ok row',
     mkLedger (ledger_world l) (customer_tokens l)
              (upsert i row' (pin_transfers l)) (put_requests l)).

(** The request of [send_new]. *)
Definition transfer_payload (amount description : json)
  (recipient : PinRecipient.t) (currency : json) : payload :=
  [ ("amount", amount);
    ("description", description);
    ("recipient", PinRecipient.token recipient);
    ("currency", currency) ].

(** [PinTransfer.send_new]. *)
Definition send_new (amount description : json) (recipient : PinRecipient.t)
  (currency : json) : M Ledger PinTransfer.t :=
  pin_env <- lift (PinEnvironment_init "") ;;
  let data := transfer_payload amount description recipient currency in
  response <- in_world (post pin_env "/transfers" data) ;;
  data <- lift (getitem (snd response) "response") ;;
  row <- lift (transfer_of data recipient (fst response)) ;;
  create_transfer row.

(** *** What the interpretation of a response may assign *)

(** The assignments [f] leave alone what [save] looks at, and [processed]. *)
Definition careful (f : PinTransaction.t -> PinTransaction.t) : Prop :=
  harmless f
  /\ forall x, PinTransaction.processed (f x) = PinTransaction.processed x.

(** The object is a processed row of key [i] that [save] accepts, and the
    world is [w]. *)
Definition pending (i : Z) (w : World) (st : TxnState) : Prop :=
  world st = w
  /\ PinTransaction.id (self st) = Some i
  /\ PinTransaction.processed (self st) = true
  /\ stored (self st)
  /\ save_accepts (self st) = true.

(** The first part of [record_response]: the response text is assigned and
    the response is interpreted. *)
Definition interpretation (response : string * json) : M TxnState unit :=
  modify_self (PinTransaction.set_pin_response_text (Some (fst response))) ;;;
  match snd response with
  | JNull => modify_self (PinTransaction.set_pin_response (JStr "Failure."))
  | response_json =>
      has_error <- lift (in_keys "error" response_json) ;;
      if has_error : bool
      then interpret_error response_json
      else interpret_success response_json
  end.

(** A computation started in a state satisfying [P] leaves a state
    satisfying [Q], whether it returns or raises. *)
Definition triple {S A} (P : S -> Prop) (m : M S A) (Q : S -> Prop) : Prop :=
  forall s, P s -> Q (snd (m s)).

(** The object is marked as processed and at most [n] requests were sent. *)
Definition settled (n : nat) (st : TxnState) : Prop :=
  PinTransaction.processed (self st) = true
  /\ (posts (trace (world st)) <= n)%nat.

(** ** Properties *)

(** *** Tables *)

Lemma select_upsert {A} (i : Z) (a : A) (rows : table A) :
  select i (upsert i a rows) = Some a.
Proof.
  induction rows as [|[j b] rest IH]; simpl.
  - now rewrite Z.eqb_refl.
  - destruct (i =? j) eqn:E; simpl.
    + now rewrite Z.eqb_refl.
    + now rewrite E.
Qed.

Lemma select_below_next_id {A} (i : Z) (rows : table A) :
  fold_right Z.max 0 (map fst rows) < i -> select i rows = None.
Proof.
  induction rows as [|[j b] rest IH]; simpl; intros H; [reflexivity|].
  destruct (i =? j) eqn:E.
  - apply Z.eqb_eq in E. lia.
  - apply IH. lia.
Qed.

Lemma next_id_fresh {A} (rows : table A) : select (next_id rows) rows = None.
Proof. apply select_below_next_id. unfold next_id. lia. Qed.


Lemma posts_app (tr tr' : list event) :
  posts (tr ++ tr') = (posts tr + posts tr')%nat.
Proof. unfold posts. now rewrite filter_app, length_app. Qed.

(** *** Rules for [triple] *)

Lemma triple_bind {S A B} (P Q R : S -> Prop) (m : M S A) (k : A -> M S B) :
  triple P m Q -> (forall a, triple Q (k a) R) -> (forall s, Q s -> R s) ->
  triple P (bind m k) R.
Proof.
  intros Hm Hk Hw s Hs. unfold bind. specialize (Hm s Hs).
  destruct (m s) as [[a|e] s']; simpl in *.
  - apply Hk, Hm.
  - apply Hw, Hm.
Qed.

Lemma triple_keep {S A B} (I : S -> Prop) (m : M S A) (k : A -> M S B) :
  triple I m I -> (forall a, triple I (k a) I) -> triple I (bind m k) I.
Proof. intros Hm Hk. apply (triple_bind I I I); auto. Qed.

Lemma triple_ret {S A} (I : S -> Prop) (a : A) : triple I (ret a) I.
Proof. intros s Hs. exact Hs. Qed.

Lemma triple_raise {S A} (I : S -> Prop) (e : exn) :
  triple I (raise (A := A) e) I.
Proof. intros s Hs. exact Hs. Qed.

Lemma triple_lift {S A} (I : S -> Prop) (r : res A) : triple I (lift r) I.
Proof. intros s Hs. exact Hs. Qed.

Lemma triple_get {S} (I : S -> Prop) : triple I get I.
Proof. intros s Hs. exact Hs. Qed.

(** *** Invariants of the methods of a transaction

    A property of the state that no assignment to an attribute other than
    [processed] and no write of a transaction row can break is kept by
    [save] and by the interpretation of a response. *)
Section Invariant.

Variable I : TxnState -> Prop.

Hypothesis I_assign :
  forall f st,
    (forall r, PinTransaction.processed (f r) = PinTransaction.processed r) ->
    I st -> I (mkTxnState (f (self st)) (world st)).

Hypothesis I_write :
  forall st row rows,
    I st ->
    I (mkTxnState (self st)
         (mkWorld rows (bank_accounts (world st)) (recipients (world st))
                  (trace (world st) ++ [SaveTransaction row]))).

Lemma inv_modify_self (f : PinTransaction.t -> PinTransaction.t) :
  (forall r, PinTransaction.processed (f r) = PinTransaction.processed r) ->
  triple I (modify_self f) I.
Proof. intros Hf st Hst. now apply I_assign. Qed.

Lemma inv_model_save : triple I model_save I.
Proof.
  intros st Hst. unfold model_save. cbn [snd].
  set (i := match PinTransaction.id (self st) with
            | Some i => i
            | None => next_id (transactions (world st))
            end).
  apply (I_write
           (mkTxnState (PinTransaction.set_id (Some i) (self st)) (world st))).
  now apply I_assign.
Qed.

Ltac keep :=
  repeat first
    [ apply triple_ret | apply triple_raise | apply triple_lift
    | apply triple_get | apply inv_model_save
    | apply inv_modify_self; intros; reflexivity
    | apply triple_keep; [|intro] ].

Lemma inv_save : triple I save I.
Proof.
  unfold save.
  apply triple_keep; [apply triple_get|]. intros st.
  destruct (negb _); [apply triple_raise|].
  destruct (_ && _); [apply triple_raise|].
  apply triple_keep.
  { destruct (negb _); keep. }
  intros _. apply triple_keep; [apply triple_get|]. intros st'.
  destruct (negb _); [apply triple_raise|].
  apply triple_keep; [|intros _; apply inv_model_save].
  destruct (PinTransaction.date _); keep.
Qed.

Lemma inv_interpret_error (j : json) : triple I (interpret_error j) I.
Proof.
  unfold interpret_error.
  apply triple_keep; [apply triple_lift | intros has_messages].
  apply triple_keep; [| intros _; keep].
  destruct has_messages; [| keep].
  do 3 (apply triple_keep; [apply triple_lift | intro]).
  match goal with |- context [if ?b then _ else _] => destruct b end; keep.
Qed.

Lemma inv_interpret_success (j : json) : triple I (interpret_success j) I.
Proof. unfold interpret_success. keep. Qed.

Lemma inv_record_response (response : string * json) :
  triple I (record_response response) I.
Proof.
  unfold record_response.
  apply triple_keep; [keep|]. intros _.
  apply triple_keep.
  { destruct (snd response); try (now keep);
      (apply triple_keep; [apply triple_lift | intros has_error;
         destruct has_error;
         [apply inv_interpret_error | apply inv_interpret_success]]). }
  intros _. apply triple_keep; [apply inv_save|]. intros _. keep.
Qed.

End Invariant.

Lemma settled_assign (n : nat) f st :
  (forall r, PinTransaction.processed (f r) = PinTransaction.processed r) ->
  settled n st -> settled n (mkTxnState (f (self st)) (world st)).
Proof. intros Hf [Hp Hn]. split; simpl; [now rewrite Hf | exact Hn]. Qed.

Lemma settled_write (n : nat) st row rows :
  settled n st ->
  settled n
    (mkTxnState (self st)
       (mkWorld rows (bank_accounts (world st)) (recipients (world st))
                (trace (world st) ++ [SaveTransaction row]))).
Proof.
  intros [Hp Hn]. split; simpl; [exact Hp|].
  rewrite posts_app. unfold posts at 2. simpl. lia.
Qed.

Lemma settled_post (n : nat) env path data :
  triple (settled n) (on_world (post env path data)) (settled (S n)).
Proof.
  intros [r w] [Hp Hn]. unfold on_world, post. simpl in *.
  destruct (pin_post env path data); simpl; (split; [exact Hp|]); simpl;
    rewrite posts_app; unfold posts at 2; simpl; lia.
Qed.

Lemma settled_weaken (n : nat) (st : TxnState) : settled n st -> settled (S n) st.
Proof. intros [Hp Hn]. split; [exact Hp | lia]. Qed.

(** *** [save] *)

Lemma save_accepted (r : PinTransaction.t) (w : World) :
  save_accepts r = true ->
  save (mkTxnState r w) = (Ok tt, mkTxnState (written r w) (commit r w)).
Proof.
  unfold save_accepts, resolved_environment, save, commit, written,
    with_defaults, row_id.
  intros H. apply andb_prop in H as [Hx Hc].
  unfold bind, get, modify_self, modify, ret, raise, model_save. simpl.
  destruct (has_card r), (has_customer r); try discriminate; simpl;
    destruct (nonempty (PinTransaction.environment r)); simpl;
    rewrite Hc; simpl;
    destruct (PinTransaction.date r); reflexivity.
Qed.

Lemma save_rejects_tokens (r : PinTransaction.t) (w : World) :
  has_card r = has_customer r ->
  exists msg, save (mkTxnState r w) = (Raise (PinError msg), mkTxnState r w).
Proof.
  intros H. unfold save, bind, get, raise. simpl. rewrite H.
  destruct (has_customer r); simpl; eexists; reflexivity.
Qed.

Lemma save_world (st : TxnState) :
  (exists e st', save st = (Raise e, st') /\ world st' = world st)
  \/ (save st = (Ok tt, mkTxnState (written (self st) (world st))
                                   (commit (self st) (world st)))
      /\ save_accepts (self st) = true).
Proof.
  destruct st as [r w]. simpl.
  destruct (save_accepts r) eqn:E.
  - right. split; [now apply save_accepted | reflexivity].
  - left. unfold save_accepts, resolved_environment in E.
    unfold save, bind, get, modify_self, modify, ret, raise. simpl.
    destruct (has_card r), (has_customer r); simpl in *;
      try (do 2 eexists; split; reflexivity);
      destruct (nonempty (PinTransaction.environment r)); simpl;
      rewrite E; simpl; do 2 eexists; split; reflexivity.
Qed.

(** C6: [PinTransaction.save] raises a [PinError] and writes nothing when the
    card token and the customer token are both empty or both set; when it
    returns, exactly one of them is set and the row is in the table; and
    whenever it raises, the database is as it was. *)
Theorem save_requires_exactly_one_token (r : PinTransaction.t) (w : World) :
  (has_card r = has_customer r ->
   exists msg,
     save (mkTxnState r w) = (Raise (PinError msg), mkTxnState r w))
  /\ (forall st',
        save (mkTxnState r w) = (Ok tt, st') ->
        xorb (has_card r) (has_customer r) = true
        /\ select (row_id r w) (transactions (world st')) = Some (self st'))
  /\ (forall e st', save (mkTxnState r w) = (Raise e, st') -> world st' = w).
Proof.
  split; [apply save_rejects_tokens|]. split.
  - intros st' H.
    destruct (save_world (mkTxnState r w)) as [(e & s & He & _) | [Hs Ha]];
      [congruence|].
    simpl in Hs. rewrite Hs in H. injection H as <-. simpl.
    split; [|apply select_upsert].
    unfold save_accepts in Ha. now apply andb_prop in Ha as [Hx _].
  - intros e st' H.
    destruct (save_world (mkTxnState r w)) as [(e' & s & He & Hw) | [Hs _]];
      [|simpl in Hs; congruence].
    rewrite He in H. injection H as _ <-. exact Hw.
Qed.

(** *** [process_transaction] *)

Lemma process_settles (n : nat) :
  triple (fun st => (posts (trace (world st)) <= n)%nat)
         process_transaction (settled (S n)).
Proof.
  intros st Hst. unfold process_transaction.
  unfold bind at 1, get. simpl.
  destruct (PinTransaction.processed (self st)) eqn:E.
  - simpl. split; [exact E | lia].
  - match goal with
    | |- settled _ (snd (?m st)) =>
        assert (T : triple (fun s => (posts (trace (world s)) <= n)%nat)
                           m (settled (S n)))
    end; [| now apply T].
    apply (triple_bind _ (settled n) _).
    + intros [r w] H. split; [reflexivity | exact H].
    + intros _.
      apply (triple_bind _ (settled n) _);
        [ apply inv_save; [apply settled_assign | apply settled_write]
        | | apply settled_weaken].
      intros _.
      apply (triple_bind _ (settled n) _);
        [apply triple_get | | apply settled_weaken].
      intros st0.
      apply (triple_bind _ (settled n) _);
        [apply triple_lift | | apply settled_weaken].
      intros pin_env.
      apply (triple_bind _ (settled n) _);
        [apply triple_lift | | apply settled_weaken].
      intros data.
      apply (triple_bind _ (settled (S n)) _);
        [apply settled_post | | auto].
      intros response.
      apply inv_record_response; [apply settled_assign | apply settled_write].
    + intros s [Hp Hn]. split; [exact Hp | lia].
Qed.

Lemma process_processed (st : TxnState) :
  PinTransaction.processed (self st) = true ->
  process_transaction st = (Ok JNull, st).
Proof.
  intros H. unfold process_transaction, bind, get, ret. simpl. now rewrite H.
Qed.

(** C1: on a transaction that is already processed, [process_transaction]
    returns [None] and leaves the object, the database and the trace as they
    were, so that no request is sent; and after any first call, whatever its
    outcome, a second call is such a no-op and the two calls together have
    sent at most one request. *)
Theorem process_transaction_idempotent (st : TxnState) :
  (PinTransaction.processed (self st) = true ->
   process_transaction st = (Ok JNull, st))
  /\ (forall st1,
        st1 = snd (process_transaction st) ->
        process_transaction st1 = (Ok JNull, st1)
        /\ (posts (trace (world (snd (process_transaction st1))))
            <= S (posts (trace (world st))))%nat).
Proof.
  split; [apply process_processed|].
  intros st1 ->.
  destruct (process_settles (posts (trace (world st))) st (Nat.le_refl _))
    as [Hp Hn].
  rewrite (process_processed _ Hp). simpl. auto.
Qed.

(** *** The first half of [process_transaction] *)

Lemma written_stored (r : PinTransaction.t) (w : World) : stored (written r w).
Proof.
  unfold stored, written, with_defaults, resolved_environment.
  destruct (nonempty (PinTransaction.environment r)) eqn:E; simpl;
    destruct (PinTransaction.date r) eqn:D; simpl; rewrite ?D; simpl;
    repeat split; try (eexists; reflexivity); rewrite ?E; try reflexivity;
    now destruct (nonempty (default_environment cfg)).
Qed.

Lemma written_environment (r : PinTransaction.t) (w : World) :
  PinTransaction.environment (written r w) = resolved_environment r.
Proof.
  unfold written, with_defaults, resolved_environment.
  destruct (nonempty (PinTransaction.environment r)); simpl;
    destruct (PinTransaction.date r); reflexivity.
Qed.

Lemma written_tokens (r : PinTransaction.t) (w : World) :
  has_card (written r w) = has_card r
  /\ has_customer (written r w) = has_customer r
  /\ charge_payload (written r w) = charge_payload r.
Proof.
  unfold written, with_defaults, has_card, has_customer, charge_payload,
    has_card.
  destruct (nonempty (PinTransaction.environment r)); simpl;
    destruct (PinTransaction.date r); simpl; auto.
Qed.

Lemma written_accepts (r : PinTransaction.t) (w : World) :
  save_accepts (written r w) = save_accepts r.
Proof.
  unfold save_accepts.
  destruct (written_tokens r w) as (-> & -> & _).
  destruct (written_stored r w) as (_ & _ & ->).
  now rewrite written_environment.
Qed.

Lemma written_again (r : PinTransaction.t) (w : World) :
  stored r -> written r w = r.
Proof.
  intros ((i & Hi) & (d & Hd) & He).
  unfold written, with_defaults, row_id. unfold resolved_environment in He.
  destruct r. simpl in *. subst.
  destruct (nonempty environment) eqn:E; simpl; [reflexivity|].
  now rewrite <- He.
Qed.

(** Saving an object that was saved before writes it as it is. *)
Lemma save_again (r : PinTransaction.t) (w : World) :
  stored r -> save_accepts r = true ->
  save (mkTxnState r w) = (Ok tt, mkTxnState r (commit r w)).
Proof.
  intros Hs Ha. rewrite (save_accepted r w Ha).
  now rewrite (written_again r w Hs).
Qed.

Lemma init_resolved (r : PinTransaction.t) :
  save_accepts r = true ->
  PinEnvironment_init (resolved_environment r)
  = Ok (PinEnvironment.mk (resolved_environment r)).
Proof.
  unfold save_accepts. intros H. apply andb_prop in H as [_ Hc].
  unfold PinEnvironment_init.
  assert (E : (if nonempty (resolved_environment r)
               then resolved_environment r
               else default_environment cfg) = resolved_environment r).
  { unfold resolved_environment.
    destruct (nonempty (PinTransaction.environment r)) eqn:E1;
      [now rewrite E1|].
    now destruct (nonempty (default_environment cfg)). }
  rewrite E. now rewrite Hc.
Qed.

Lemma charge_payload_defined (r : PinTransaction.t) :
  save_accepts r = true -> exists data, charge_payload r = Ok data.
Proof.
  unfold save_accepts, charge_payload, has_customer. intros H.
  apply andb_prop in H as [Hx _].
  destruct (has_card r); [eexists; reflexivity|].
  destruct (PinTransaction.customer_token r); [eexists; reflexivity|].
  discriminate.
Qed.

Lemma process_sends (r : PinTransaction.t) (w : World) (data : payload) :
  PinTransaction.processed r = false ->
  save_accepts r = true ->
  charge_payload r = Ok data ->
  process_transaction (mkTxnState r w)
  = match charge_reply r data with
    | Failed e => (Raise e, mkTxnState (submitted r w) (awaiting r w data))
    | Replied text parsed =>
        record_response (text, parsed)
          (mkTxnState (submitted r w) (awaiting r w data))
    end.
Proof.
  intros Hp Ha Hd. unfold process_transaction.
  unfold bind at 1, get. cbv beta iota. cbn [self]. rewrite Hp.
  unfold bind at 1, modify_self, modify. cbn [self world].
  unfold bind at 1.
  rewrite (save_accepted (PinTransaction.set_processed true r) w Ha).
  unfold bind at 1, get. cbn [self world].
  rewrite written_environment.
  change (resolved_environment (PinTransaction.set_processed true r))
    with (resolved_environment r).
  unfold bind at 1, lift. rewrite (init_resolved r Ha).
  unfold bind at 1.
  destruct (written_tokens (PinTransaction.set_processed true r) w)
    as (_ & _ & Hc).
  rewrite Hc.
  change (charge_payload (PinTransaction.set_processed true r))
    with (charge_payload r).
  rewrite Hd.
  unfold bind at 1, on_world, post, charge_reply, awaiting, sent, submitted.
  cbn [self world].
  destruct (pin_post _ _ _); reflexivity.
Qed.

Lemma follows_assign (base : list event) f st :
  (forall r, PinTransaction.processed (f r) = PinTransaction.processed r) ->
  follows base st -> follows base (mkTxnState (f (self st)) (world st)).
Proof. intros _ H. exact H. Qed.

Lemma follows_write (base : list event) st row rows :
  follows base st ->
  follows base
    (mkTxnState (self st)
       (mkWorld rows (bank_accounts (world st)) (recipients (world st))
                (trace (world st) ++ [SaveTransaction row]))).
Proof.
  intros (rest & Ht & Hn). exists (rest ++ [SaveTransaction row])%list.
  simpl. rewrite Ht, <- app_assoc. split; [reflexivity|].
  rewrite posts_app, Hn. reflexivity.
Qed.

Lemma submitted_fields (r : PinTransaction.t) (w : World) :
  PinTransaction.processed (submitted r w) = true
  /\ PinTransaction.succeeded (submitted r w) = PinTransaction.succeeded r
  /\ PinTransaction.pin_response (submitted r w) = PinTransaction.pin_response r
  /\ PinTransaction.pin_response_text (submitted r w)
     = PinTransaction.pin_response_text r.
Proof.
  unfold submitted, written, with_defaults.
  destruct (nonempty _); simpl; destruct (PinTransaction.date r); simpl; auto.
Qed.

Lemma awaiting_row (r : PinTransaction.t) (w : World) (data : payload) :
  select (row_id r w) (transactions (awaiting r w data)) = Some (submitted r w).
Proof. unfold awaiting, sent, commit. simpl. apply select_upsert. Qed.

Lemma awaiting_trace (r : PinTransaction.t) (w : World) (data : payload) :
  trace (awaiting r w data)
  = (trace w ++ [SaveTransaction (submitted r w); HttpPost "/charges" data])%list.
Proof. unfold awaiting, sent, commit. simpl. now rewrite <- app_assoc. Qed.

(** C2: on a transaction that is not processed yet (and that [save]
    accepts), the row is written with [processed] set before the charge
    request leaves, whatever the gateway answers: the trace goes on with the
    write, then the request, then no other request.  If the gateway call
    raises, the exception reaches the caller; the row in the table has
    [processed] set, [succeeded] and the response fields as they were
    (false and empty on a new transaction), and a later call sends nothing. *)
Theorem charge_is_recorded_before_it_is_sent
  (r : PinTransaction.t) (w : World) (data : payload) :
  PinTransaction.processed r = false ->
  save_accepts r = true ->
  charge_payload r = Ok data ->
  follows (trace w ++ [SaveTransaction (submitted r w);
                       HttpPost "/charges" data])
          (snd (process_transaction (mkTxnState r w)))
  /\ PinTransaction.processed (submitted r w) = true
  /\ (forall e,
        charge_reply r data = Failed e ->
        let st' := mkTxnState (submitted r w) (awaiting r w data) in
        process_transaction (mkTxnState r w) = (Raise e, st')
        /\ select (row_id r w) (transactions (world st'))
           = Some (submitted r w)
        /\ PinTransaction.succeeded (submitted r w)
           = PinTransaction.succeeded r
        /\ PinTransaction.pin_response (submitted r w)
           = PinTransaction.pin_response r
        /\ PinTransaction.pin_response_text (submitted r w)
           = PinTransaction.pin_response_text r
        /\ process_transaction st' = (Ok JNull, st')).
Proof.
  intros Hp Ha Hd.
  destruct (submitted_fields r w) as (Hp' & Hs & Hr & Ht).
  pose proof (process_sends r w data Hp Ha Hd) as E.
  assert (F : follows (trace w ++ [SaveTransaction (submitted r w);
                                   HttpPost "/charges" data])
                      (mkTxnState (submitted r w) (awaiting r w data))).
  { exists []. cbn [world]. rewrite awaiting_trace, app_nil_r. auto. }
  split; [|split; [exact Hp'|]].
  - rewrite E. destruct (charge_reply r data) as [text parsed | e].
    + apply (inv_record_response _ (follows_assign _) (follows_write _)).
      exact F.
    + exact F.
  - intros e He st'. rewrite E, He.
    repeat split; auto.
    + apply awaiting_row.
    + now apply process_processed.
Qed.

(** A row that was saved before, changed by [f] in attributes that [save]
    does not look at, is saved as it is. *)
Lemma stored_changed (f : PinTransaction.t -> PinTransaction.t)
  (r : PinTransaction.t) :
  PinTransaction.id (f r) = PinTransaction.id r ->
  PinTransaction.date (f r) = PinTransaction.date r ->
  PinTransaction.environment (f r) = PinTransaction.environment r ->
  stored r -> stored (f r).
Proof.
  intros Hi Hd He. unfold stored, resolved_environment.
  now rewrite Hi, Hd, He.
Qed.

Lemma save_changed (f : PinTransaction.t -> PinTransaction.t)
  (r : PinTransaction.t) (w : World) :
  PinTransaction.id (f r) = PinTransaction.id r ->
  PinTransaction.date (f r) = PinTransaction.date r ->
  PinTransaction.environment (f r) = PinTransaction.environment r ->
  PinTransaction.card_token (f r) = PinTransaction.card_token r ->
  PinTransaction.customer_token (f r) = PinTransaction.customer_token r ->
  stored r -> save_accepts r = true ->
  save (mkTxnState (f r) w) = (Ok tt, mkTxnState (f r) (commit (f r) w)).
Proof.
  intros Hi Hd He Hc Hk Hs Ha.
  apply save_again.
  - now apply stored_changed.
  - unfold save_accepts, resolved_environment, has_card, has_customer in *.
    now rewrite Hc, Hk, He.
Qed.

Lemma commit_select (r : PinTransaction.t) (w : World) :
  stored r -> select (row_id r w) (transactions (commit r w)) = Some r.
Proof.
  intros Hs. unfold commit. cbn [transactions].
  rewrite (written_again r w Hs). apply select_upsert.
Qed.

Lemma submitted_id (r : PinTransaction.t) (w : World) :
  PinTransaction.id (submitted r w) = Some (row_id r w).
Proof. reflexivity. Qed.

Lemma row_id_known (r : PinTransaction.t) (w : World) (i : Z) :
  PinTransaction.id r = Some i -> row_id r w = i.
Proof. unfold row_id. now intros ->. Qed.

Lemma submitted_stored (r : PinTransaction.t) (w : World) :
  save_accepts r = true ->
  stored (submitted r w) /\ save_accepts (submitted r w) = true.
Proof.
  intros Ha. unfold submitted. split; [apply written_stored|].
  now rewrite written_accepts.
Qed.

(** C4: when the body of the charge response is not JSON, so that the parsed
    part is [None], [process_transaction] sets [pin_response] to
    ["Failure."], leaves [succeeded] as it was (false on a transaction that
    has not succeeded) with [processed] set, writes the row and returns
    ["Failure."]. *)
Theorem unparseable_response_is_a_failure
  (r : PinTransaction.t) (w : World) (data : payload) (text : string) :
  PinTransaction.processed r = false ->
  save_accepts r = true ->
  charge_payload r = Ok data ->
  charge_reply r data = Replied text JNull ->
  let row :=
    PinTransaction.set_pin_response (JStr "Failure.")
      (PinTransaction.set_pin_response_text (Some text) (submitted r w)) in
  process_transaction (mkTxnState r w)
  = (Ok (JStr "Failure."),
     mkTxnState row (commit row (awaiting r w data)))
  /\ PinTransaction.pin_response row = JStr "Failure."
  /\ PinTransaction.succeeded row = PinTransaction.succeeded r
  /\ PinTransaction.processed row = true
  /\ select (row_id r w) (transactions (commit row (awaiting r w data)))
     = Some row.
Proof.
  intros Hp Ha Hd Hr row.
  destruct (submitted_fields r w) as (Hp' & Hs & _ & _).
  destruct (submitted_stored r w Ha) as (St & Sa).
  rewrite (process_sends r w data Hp Ha Hd), Hr.
  assert (Hsave : save (mkTxnState row (awaiting r w data))
                  = (Ok tt, mkTxnState row (commit row (awaiting r w data)))).
  { apply (save_changed
             (fun x => PinTransaction.set_pin_response (JStr "Failure.")
                         (PinTransaction.set_pin_response_text (Some text) x)));
      auto. }
  split.
  - unfold record_response.
    unfold bind at 1, modify_self, modify. cbn [fst snd self world].
    unfold bind at 1. cbn [fst snd self world].
    unfold bind at 1. fold row. rewrite Hsave.
    reflexivity.
  - repeat split; auto.
    rewrite <- (row_id_known row (awaiting r w data) (row_id r w));
      [|reflexivity].
    apply commit_select.
    now apply (stored_changed
                 (fun x => PinTransaction.set_pin_response (JStr "Failure.")
                             (PinTransaction.set_pin_response_text
                                (Some text) x))).
Qed.

(** *** The second half of [process_transaction] *)

Lemma record_response_raises text o r0 w0 e st2 :
  interpret o
    (mkTxnState (PinTransaction.set_pin_response_text (Some text) r0) w0)
  = (Raise e, st2) ->
  record_response (text, JObj o) (mkTxnState r0 w0) = (Raise e, st2).
Proof.
  intros H. unfold record_response.
  unfold bind at 1, modify_self, modify. cbn [fst snd self world].
  unfold bind at 1. unfold bind at 1, lift, in_keys.
  unfold interpret in H. cbn [fst snd]. 
  destruct (has_key "error" o); rewrite H; reflexivity.
Qed.

Lemma record_response_returns text o r0 w0 r2 :
  interpret o
    (mkTxnState (PinTransaction.set_pin_response_text (Some text) r0) w0)
  = (Ok tt, mkTxnState r2 w0) ->
  save (mkTxnState r2 w0) = (Ok tt, mkTxnState r2 (commit r2 w0)) ->
  record_response (text, JObj o) (mkTxnState r0 w0)
  = (Ok (PinTransaction.pin_response r2), mkTxnState r2 (commit r2 w0)).
Proof.
  intros H Hs. unfold record_response.
  unfold bind at 1, modify_self, modify. cbn [fst snd self world].
  unfold bind at 1. unfold bind at 1, lift, in_keys.
  unfold interpret in H. cbn [fst snd].
  destruct (has_key "error" o); rewrite H; unfold bind at 1; rewrite Hs;
    reflexivity.
Qed.

Ltac run_interpret :=
  unfold interpret, interpret_error, interpret_success, in_keys, has_key,
    getitem2, getitem, getitem0, dict_get, truediv_d100, bind, lift,
    modify_self, modify, ret, charge_token_of;
  cbn [self world fst snd].

Lemma interpret_error_message o r1 w1 m rest v :
  has_key "error" o = true ->
  lookup "messages" o = Some (JArr (JObj m :: rest)) ->
  lookup "message" m = Some v ->
  interpret o (mkTxnState r1 w1)
  = (Ok tt,
     mkTxnState
       (PinTransaction.set_transaction_token (charge_token_of o)
          (PinTransaction.set_pin_response
             (JStr ("Failure: " ++ format0 v)) r1)) w1).
Proof.
  intros He Hm Hv. unfold interpret. rewrite He. run_interpret.
  rewrite Hm. cbn. rewrite Hv. reflexivity.
Qed.

Lemma interpret_error_description o r1 w1 v :
  has_key "error" o = true ->
  lookup "messages" o = None ->
  lookup "error_description" o = Some v ->
  interpret o (mkTxnState r1 w1)
  = (Ok tt,
     mkTxnState
       (PinTransaction.set_transaction_token (charge_token_of o)
          (PinTransaction.set_pin_response
             (JStr ("Failure: " ++ format0 v)) r1)) w1).
Proof.
  intros He Hm Hv. unfold interpret. rewrite He. run_interpret.
  rewrite Hm, Hv. reflexivity.
Qed.

Lemma interpret_error_silent o r1 w1 m rest :
  has_key "error" o = true ->
  lookup "messages" o = Some (JArr (JObj m :: rest)) ->
  lookup "message" m = None ->
  interpret o (mkTxnState r1 w1)
  = (Ok tt,
     mkTxnState (PinTransaction.set_transaction_token (charge_token_of o) r1)
                w1).
Proof.
  intros He Hm Hv. unfold interpret. rewrite He. run_interpret.
  rewrite Hm. cbn. rewrite Hv. reflexivity.
Qed.

Lemma interpret_error_no_messages o r1 w1 :
  has_key "error" o = true ->
  lookup "messages" o = Some (JArr []) ->
  interpret o (mkTxnState r1 w1) = (Raise IndexError, mkTxnState r1 w1).
Proof.
  intros He Hm. unfold interpret. rewrite He. run_interpret.
  rewrite Hm. reflexivity.
Qed.

Lemma process_interprets r w data text o f :
  PinTransaction.processed r = false ->
  save_accepts r = true ->
  charge_payload r = Ok data ->
  charge_reply r data = Replied text (JObj o) ->
  harmless f ->
  interpret o (mkTxnState (answered r w text) (awaiting r w data))
  = (Ok tt, mkTxnState (f (answered r w text)) (awaiting r w data)) ->
  process_transaction (mkTxnState r w)
  = (Ok (PinTransaction.pin_response (f (answered r w text))),
     mkTxnState (f (answered r w text))
                (commit (f (answered r w text)) (awaiting r w data)))
  /\ select (row_id r w)
       (transactions (commit (f (answered r w text)) (awaiting r w data)))
     = Some (f (answered r w text)).
Proof.
  intros Hp Ha Hd Hr Hf Hi.
  destruct (submitted_stored r w Ha) as (St & Sa).
  set (g := fun x => f (PinTransaction.set_pin_response_text (Some text) x)).
  assert (Hg : forall x,
             PinTransaction.id (g x) = PinTransaction.id x
             /\ PinTransaction.date (g x) = PinTransaction.date x
             /\ PinTransaction.environment (g x) = PinTransaction.environment x
             /\ PinTransaction.card_token (g x) = PinTransaction.card_token x
             /\ PinTransaction.customer_token (g x)
                = PinTransaction.customer_token x).
  { intros x. unfold g.
    destruct (Hf (PinTransaction.set_pin_response_text (Some text) x))
      as (-> & -> & -> & -> & ->). auto. }
  destruct (Hg (submitted r w)) as (G1 & G2 & G3 & G4 & G5).
  change (f (answered r w text)) with (g (submitted r w)) in *.
  split.
  - rewrite (process_sends r w data Hp Ha Hd), Hr.
    apply record_response_returns; [exact Hi|].
    now apply save_changed.
  - rewrite <- (row_id_known (g (submitted r w)) (awaiting r w data)
                             (row_id r w)).
    + apply commit_select. now apply stored_changed.
    + now rewrite G1.
Qed.

Ltac harmless := intros x; repeat split; reflexivity.

Lemma submitted_token (r : PinTransaction.t) (w : World) :
  PinTransaction.transaction_token (submitted r w)
  = PinTransaction.transaction_token r.
Proof.
  unfold submitted, written, with_defaults.
  destruct (nonempty _); simpl; destruct (PinTransaction.date r); simpl; auto.
Qed.

Lemma getitem0_object (messages : json) (m : list (string * json)) :
  getitem0 messages = Ok (JObj m) ->
  exists rest, messages = JArr (JObj m :: rest).
Proof.
  destruct messages as [| | | |s|items|]; try discriminate.
  - destruct s; discriminate.
  - destruct items as [|x rest]; [discriminate|].
    intros [= ->]. now exists rest.
Qed.

Lemma interpret_error_bad_messages o r1 w1 messages e :
  has_key "error" o = true ->
  lookup "messages" o = Some messages ->
  getitem0 messages = Raise e ->
  interpret o (mkTxnState r1 w1) = (Raise e, mkTxnState r1 w1).
Proof.
  intros He Hm H0. unfold interpret. rewrite He.
  unfold interpret_error, in_keys, has_key, getitem, bind, lift.
  rewrite Hm, H0. reflexivity.
Qed.

Lemma interpret_error_bad_first o r1 w1 messages first :
  has_key "error" o = true ->
  lookup "messages" o = Some messages ->
  getitem0 messages = Ok first ->
  (forall m, first <> JObj m) ->
  interpret o (mkTxnState r1 w1) = (Raise AttributeError, mkTxnState r1 w1).
Proof.
  intros He Hm H0 Hf. unfold interpret. rewrite He.
  unfold interpret_error, in_keys, has_key, getitem, bind, lift.
  rewrite Hm, H0.
  destruct first; try reflexivity. now destruct (Hf members).
Qed.

Lemma interpret_error_no_description o r1 w1 :
  has_key "error" o = true ->
  lookup "messages" o = None ->
  lookup "error_description" o = None ->
  interpret o (mkTxnState r1 w1)
  = (Raise (KeyError "error_description"), mkTxnState r1 w1).
Proof.
  intros He Hm Hd. unfold interpret. rewrite He.
  unfold interpret_error, in_keys, has_key, getitem, bind, lift.
  rewrite Hm, Hd. reflexivity.
Qed.

(** C3, as the code has it: on a response with an [error] key there are six
    paths.  On three of them the call returns, [succeeded] stays as it was
    and [transaction_token] becomes the response's [charge_token] or [None]:
    [pin_response] becomes ["Failure: "] followed by the [message] of the
    first element of [messages] when there is a [messages] list whose first
    element is an object with a [message]; it becomes ["Failure: "] followed
    by [error_description] when there is no [messages] key; and it is left
    as it was when the first element of [messages] is an object without a
    [message].  On the other three the exception reaches the caller before
    the [charge_token] is read: [messages[0]] raises, the first element is
    no object, or there is neither [messages] nor [error_description]; then
    [transaction_token], [pin_response] and [succeeded] are as they were and
    the row in the table is the one of the first [save].  There is no other
    path. *)
Theorem gateway_error_is_recorded
  (r : PinTransaction.t) (w : World) (data : payload) (text : string)
  (o : list (string * json)) :
  PinTransaction.processed r = false ->
  save_accepts r = true ->
  charge_payload r = Ok data ->
  charge_reply r data = Replied text (JObj o) ->
  has_key "error" o = true ->
  let failure v :=
    PinTransaction.set_transaction_token (charge_token_of o)
      (PinTransaction.set_pin_response (JStr ("Failure: " ++ format0 v))
         (answered r w text)) in
  let silent :=
    PinTransaction.set_transaction_token (charge_token_of o)
      (answered r w text) in
  let outcome row :=
    process_transaction (mkTxnState r w)
    = (Ok (PinTransaction.pin_response row),
       mkTxnState row (commit row (awaiting r w data)))
    /\ select (row_id r w) (transactions (commit row (awaiting r w data)))
       = Some row
    /\ PinTransaction.succeeded row = PinTransaction.succeeded r
    /\ PinTransaction.transaction_token row = charge_token_of o in
  let raises e :=
    process_transaction (mkTxnState r w)
    = (Raise e, mkTxnState (answered r w text) (awaiting r w data))
    /\ select (row_id r w) (transactions (awaiting r w data))
       = Some (submitted r w)
    /\ PinTransaction.transaction_token (answered r w text)
       = PinTransaction.transaction_token r
    /\ PinTransaction.transaction_token (submitted r w)
       = PinTransaction.transaction_token r
    /\ PinTransaction.pin_response (answered r w text)
       = PinTransaction.pin_response r
    /\ PinTransaction.succeeded (answered r w text)
       = PinTransaction.succeeded r in
  (forall m rest v,
     lookup "messages" o = Some (JArr (JObj m :: rest)) ->
     lookup "message" m = Some v ->
     outcome (failure v)
     /\ PinTransaction.pin_response (failure v)
        = JStr ("Failure: " ++ format0 v))
  /\ (forall v,
        lookup "messages" o = None ->
        lookup "error_description" o = Some v ->
        outcome (failure v)
        /\ PinTransaction.pin_response (failure v)
           = JStr ("Failure: " ++ format0 v))
  /\ (forall m rest,
        lookup "messages" o = Some (JArr (JObj m :: rest)) ->
        lookup "message" m = None ->
        outcome silent
        /\ PinTransaction.pin_response silent = PinTransaction.pin_response r)
  /\ (forall messages e,
        lookup "messages" o = Some messages ->
        getitem0 messages = Raise e ->
        raises e)
  /\ (forall messages first,
        lookup "messages" o = Some messages ->
        getitem0 messages = Ok first ->
        (forall m, first <> JObj m) ->
        raises AttributeError)
  /\ (lookup "messages" o = None ->
      lookup "error_description" o = None ->
      raises (KeyError "error_description"))
  /\ ((exists row, outcome row) \/ (exists e, raises e)).
Proof.
  intros Hp Ha Hd Hr He failure silent outcome raises.
  destruct (submitted_fields r w) as (_ & Hs & Hpr & _).
  assert (finish : forall f,
             harmless f ->
             (forall x, PinTransaction.succeeded (f x)
                        = PinTransaction.succeeded x) ->
             (forall x, PinTransaction.transaction_token (f x)
                        = charge_token_of o) ->
             interpret o (mkTxnState (answered r w text) (awaiting r w data))
             = (Ok tt, mkTxnState (f (answered r w text)) (awaiting r w data)) ->
             outcome (f (answered r w text))).
  { intros f Hf Hfs Hft Hi.
    destruct (process_interprets r w data text o f Hp Ha Hd Hr Hf Hi)
      as (E1 & E2).
    unfold outcome. repeat split; auto.
    rewrite Hfs. exact Hs. }
  assert (stop : forall e,
             interpret o (mkTxnState (answered r w text) (awaiting r w data))
             = (Raise e, mkTxnState (answered r w text) (awaiting r w data)) ->
             raises e).
  { intros e Hi. unfold raises.
    split; [|split; [apply awaiting_row|]].
    - rewrite (process_sends r w data Hp Ha Hd), Hr.
      now apply record_response_raises.
    - pose proof (submitted_token r w) as Ht.
      repeat split; auto. }
  assert (A : forall m rest v,
             lookup "messages" o = Some (JArr (JObj m :: rest)) ->
             lookup "message" m = Some v ->
             outcome (failure v)
             /\ PinTransaction.pin_response (failure v)
                = JStr ("Failure: " ++ format0 v)).
  { intros m rest v Hm Hv. split; [|reflexivity].
    apply (finish (fun x => PinTransaction.set_transaction_token
                              (charge_token_of o)
                              (PinTransaction.set_pin_response
                                 (JStr ("Failure: " ++ format0 v)) x)));
      [harmless | reflexivity | reflexivity |].
    now apply (interpret_error_message o _ _ m rest v). }
  assert (B : forall v,
             lookup "messages" o = None ->
             lookup "error_description" o = Some v ->
             outcome (failure v)
             /\ PinTransaction.pin_response (failure v)
                = JStr ("Failure: " ++ format0 v)).
  { intros v Hm Hv. split; [|reflexivity].
    apply (finish (fun x => PinTransaction.set_transaction_token
                              (charge_token_of o)
                              (PinTransaction.set_pin_response
                                 (JStr ("Failure: " ++ format0 v)) x)));
      [harmless | reflexivity | reflexivity |].
    now apply interpret_error_description. }
  assert (C : forall m rest,
             lookup "messages" o = Some (JArr (JObj m :: rest)) ->
             lookup "message" m = None ->
             outcome silent
             /\ PinTransaction.pin_response silent
                = PinTransaction.pin_response r).
  { intros m rest Hm Hv. split; [|exact Hpr].
    apply (finish (fun x => PinTransaction.set_transaction_token
                              (charge_token_of o) x));
      [harmless | reflexivity | reflexivity |].
    now apply (interpret_error_silent o _ _ m rest). }
  assert (D : forall messages e,
             lookup "messages" o = Some messages ->
             getitem0 messages = Raise e ->
             raises e).
  { intros messages e Hm H0. apply stop.
    now apply (interpret_error_bad_messages o _ _ messages). }
  assert (E : forall messages first,
             lookup "messages" o = Some messages ->
             getitem0 messages = Ok first ->
             (forall m, first <> JObj m) ->
             raises AttributeError).
  { intros messages first Hm H0 Hf. apply stop.
    now apply (interpret_error_bad_first o _ _ messages first). }
  assert (F : lookup "messages" o = None ->
              lookup "error_description" o = None ->
              raises (KeyError "error_description")).
  { intros Hm Hv. apply stop. now apply interpret_error_no_description. }
  do 6 (split; [assumption|]).
  destruct (lookup "messages" o) as [messages|] eqn:Hm.
  - destruct (getitem0 messages) as [first|e] eqn:H0.
    + assert (Hcase : (exists m, first = JObj m) \/ (forall m, first <> JObj m)).
      { destruct first; try (right; intros m; discriminate).
        left. now eexists. }
      destruct Hcase as [(m & ->)|Hf].
      * destruct (getitem0_object _ _ H0) as (rest & ->).
        destruct (lookup "message" m) as [v|] eqn:Hv.
        -- left. exists (failure v). exact (proj1 (A m rest v eq_refl Hv)).
        -- left. exists silent. exact (proj1 (C m rest eq_refl Hv)).
      * right. exists AttributeError. exact (E messages first eq_refl H0 Hf).
    + right. exists e. exact (D messages e eq_refl H0).
  - destruct (lookup "error_description" o) as [v|] eqn:Hv.
    + left. exists (failure v). exact (proj1 (B v eq_refl eq_refl)).
    + right. exists (KeyError "error_description"). exact (F eq_refl eq_refl).
Qed.

(** C9, as the code has it: on an error response whose [messages] is an
    empty list, [messages[0]] raises an [IndexError] that reaches the caller.
    The row in the table is the one of the first [save]: [processed] set,
    [succeeded], [pin_response] and the response text as they were.  The
    response text is assigned to the object in memory only. *)
Theorem empty_messages_raise
  (r : PinTransaction.t) (w : World) (data : payload) (text : string)
  (o : list (string * json)) :
  PinTransaction.processed r = false ->
  save_accepts r = true ->
  charge_payload r = Ok data ->
  charge_reply r data = Replied text (JObj o) ->
  has_key "error" o = true ->
  lookup "messages" o = Some (JArr []) ->
  process_transaction (mkTxnState r w)
  = (Raise IndexError, mkTxnState (answered r w text) (awaiting r w data))
  /\ PinTransaction.pin_response_text (answered r w text) = Some text
  /\ select (row_id r w) (transactions (awaiting r w data))
     = Some (submitted r w)
  /\ PinTransaction.processed (submitted r w) = true
  /\ PinTransaction.succeeded (submitted r w) = PinTransaction.succeeded r
  /\ PinTransaction.pin_response (submitted r w)
     = PinTransaction.pin_response r
  /\ PinTransaction.pin_response_text (submitted r w)
     = PinTransaction.pin_response_text r.
Proof.
  intros Hp Ha Hd Hr He Hm.
  destruct (submitted_fields r w) as (H1 & H2 & H3 & H4).
  repeat split; auto; [|apply awaiting_row].
  rewrite (process_sends r w data Hp Ha Hd), Hr.
  apply record_response_raises.
  now apply interpret_error_no_messages.
Qed.

(** *** Decimals *)

Lemma ten_nonzero : ~ (inject_Z 10 == 0)%Q.
Proof. discriminate. Qed.

Lemma dec_value_shift (c e : Z) :
  c mod 10 = 0 ->
  (Dec.value (Dec.mk (c / 10) (e + 1)) == Dec.value (Dec.mk c e))%Q.
Proof.
  intros H. unfold Dec.value. cbn [Dec.coeff Dec.expo].
  rewrite (Qpower_plus _ _ _ ten_nonzero).
  assert (E : c = 10 * (c / 10)) by (pose proof (Z_div_mod_eq_full c 10); lia).
  rewrite E at 2. rewrite inject_Z_mult.
  change (inject_Z 10 ^ 1)%Q with (inject_Z 10).
  ring.
Qed.

Lemma dec_strip_value (fuel : nat) (ideal : Z) (d : Dec.t) :
  (Dec.value (Dec.strip fuel ideal d) == Dec.value d)%Q.
Proof.
  revert d. induction fuel as [|fuel IH]; intros d; simpl; [reflexivity|].
  destruct (Dec.expo d <? ideal); simpl; [|reflexivity].
  destruct (Dec.coeff d mod 10 =? 0) eqn:E; simpl; [|reflexivity].
  destruct (Dec.coeff d =? 0); simpl; [reflexivity|].
  rewrite IH. apply Z.eqb_eq in E. destruct d as [c e].
  now apply dec_value_shift.
Qed.

Lemma dec_strip_coeff (fuel : nat) (ideal : Z) (d : Dec.t) :
  Z.abs (Dec.coeff (Dec.strip fuel ideal d)) <= Z.abs (Dec.coeff d).
Proof.
  revert d. induction fuel as [|fuel IH]; intros d; simpl; [lia|].
  destruct (Dec.expo d <? ideal); simpl; [|lia].
  destruct (Dec.coeff d mod 10 =? 0) eqn:E; simpl; [|lia].
  destruct (Dec.coeff d =? 0); simpl; [lia|].
  etransitivity; [apply IH|]. simpl.
  apply Z.eqb_eq in E. pose proof (Z_div_mod_eq_full (Dec.coeff d) 10). lia.
Qed.

Lemma dec_fix_small (d : Dec.t) :
  Z.abs (Dec.coeff d) < 10 ^ Dec.prec -> Dec.fix_ d = d.
Proof.
  intros H. unfold Dec.fix_. apply Z.ltb_lt in H. now rewrite H.
Qed.

(** Within the precision of the context the quotient by
    [Decimal("100.00")] is exact. *)
Lemma int_div_d100_exact (n : Z) :
  Z.abs n < 10 ^ Dec.prec ->
  (Dec.value (Dec.int_div_d100 n) == n # 100)%Q.
Proof.
  intros H. unfold Dec.int_div_d100.
  destruct (n =? 0) eqn:E.
  - apply Z.eqb_eq in E. subst. reflexivity.
  - rewrite dec_fix_small.
    + rewrite dec_strip_value. unfold Dec.value. cbn [Dec.coeff Dec.expo].
      change (inject_Z 10 ^ (-2))%Q with (1 # 100)%Q.
      unfold Qeq, Qmult, inject_Z. simpl. lia.
    + eapply Z.le_lt_trans; [apply dec_strip_coeff | exact H].
Qed.

(** *** The success branch *)

Lemma interpret_success_approves o token total_fees status_message c r1 w1 :
  charged o token total_fees status_message c ->
  interpret o (mkTxnState r1 w1)
  = (Ok tt, mkTxnState (approve token total_fees status_message c r1) w1).
Proof.
  intros (He & data & card & Hr & Ht & Hf & Hs & Hc & H).
  destruct H as (C1 & C2 & C3 & C4 & C5 & C6 & C7 & C8).
  unfold interpret. rewrite He. run_interpret.
  rewrite Hr. cbn. rewrite Ht. cbn. rewrite Hf. cbn. rewrite Hs. cbn.
  rewrite Hc. cbn.
  rewrite C1, C2, C3, C4, C5, C6, C7, C8. reflexivity.
Qed.

Lemma process_approves r w data text o token total_fees status_message c :
  PinTransaction.processed r = false ->
  save_accepts r = true ->
  charge_payload r = Ok data ->
  charge_reply r data = Replied text (JObj o) ->
  charged o token total_fees status_message c ->
  let row := approve token total_fees status_message c (answered r w text) in
  process_transaction (mkTxnState r w)
  = (Ok status_message, mkTxnState row (commit row (awaiting r w data)))
  /\ select (row_id r w) (transactions (commit row (awaiting r w data)))
     = Some row.
Proof.
  intros Hp Ha Hd Hr Hc row.
  apply (process_interprets r w data text o
           (approve token total_fees status_message c) Hp Ha Hd Hr).
  - intros x. repeat split; reflexivity.
  - now apply interpret_success_approves.
Qed.

(** C5: on a response without an [error] key that carries the expected
    keys, [process_transaction] sets [succeeded], copies the token of the
    response into [transaction_token], sets [fees] to [total_fees] divided
    by [Decimal("100.00")], which is exactly a hundredth of it within the
    28 digits of the decimal context, sets [pin_response] to the status
    message, copies the eight attributes of the card, writes the row and
    returns the status message. *)
Theorem successful_charge_is_recorded
  (r : PinTransaction.t) (w : World) (data : payload) (text : string)
  (o : list (string * json)) (token : json) (total_fees : Z)
  (status_message : json) (c : card_details) :
  PinTransaction.processed r = false ->
  save_accepts r = true ->
  charge_payload r = Ok data ->
  charge_reply r data = Replied text (JObj o) ->
  charged o token total_fees status_message c ->
  exists row,
    process_transaction (mkTxnState r w)
    = (Ok status_message, mkTxnState row (commit row (awaiting r w data)))
    /\ select (row_id r w) (transactions (commit row (awaiting r w data)))
       = Some row
    /\ PinTransaction.succeeded row = true
    /\ PinTransaction.transaction_token row = token
    /\ PinTransaction.fees row = Some (Dec.int_div_d100 total_fees)
    /\ (Z.abs total_fees < 10 ^ Dec.prec ->
        (Dec.value (Dec.int_div_d100 total_fees) == total_fees # 100)%Q)
    /\ PinTransaction.pin_response row = status_message
    /\ PinTransaction.card_address1 row = address_line1 c
    /\ PinTransaction.card_address2 row = address_line2 c
    /\ PinTransaction.card_city row = address_city c
    /\ PinTransaction.card_state row = address_state c
    /\ PinTransaction.card_postcode row = address_postcode c
    /\ PinTransaction.card_country row = address_country c
    /\ PinTransaction.card_number row = display_number c
    /\ PinTransaction.card_type row = scheme c.
Proof.
  intros Hp Ha Hd Hr Hc.
  exists (approve token total_fees status_message c (answered r w text)).
  destruct (process_approves r w data text o token total_fees status_message
              c Hp Ha Hd Hr Hc) as (E1 & E2).
  split; [exact E1|]. split; [exact E2|].
  repeat split; try reflexivity.
  apply int_div_d100_exact.
Qed.

(** C10: the success branch divides [total_fees] by [Decimal("100.00")]
    whatever the currency of the transaction: also for a zero-decimal
    currency the stored fee is a hundredth of [total_fees], while the money
    helper returns an amount in such a currency unchanged, so that the two
    differ for every fee other than zero. *)
Theorem fees_ignore_the_currency
  (r : PinTransaction.t) (w : World) (data : payload) (text : string)
  (o : list (string * json)) (token : json) (total_fees : Z)
  (status_message : json) (c : card_details) :
  PinTransaction.processed r = false ->
  save_accepts r = true ->
  charge_payload r = Ok data ->
  charge_reply r data = Replied text (JObj o) ->
  charged o token total_fees status_message c ->
  zero_decimal (PinTransaction.currency r) = true ->
  Z.abs total_fees < 10 ^ Dec.prec ->
  exists row fees,
    snd (process_transaction (mkTxnState r w))
    = mkTxnState row (commit row (awaiting r w data))
    /\ PinTransaction.currency row = PinTransaction.currency r
    /\ PinTransaction.fees row = Some fees
    /\ (Dec.value fees == total_fees # 100)%Q
    /\ get_value total_fees (PinTransaction.currency r) = Int total_fees
    /\ (total_fees <> 0 ->
        ~ (Dec.value fees
           == number_value
                (get_value total_fees (PinTransaction.currency r)))%Q).
Proof.
  intros Hp Ha Hd Hr Hc Hz Hn.
  exists (approve token total_fees status_message c (answered r w text)),
    (Dec.int_div_d100 total_fees).
  destruct (process_approves r w data text o token total_fees status_message
              c Hp Ha Hd Hr Hc) as (E1 & _).
  rewrite E1. cbn [snd].
  pose proof (int_div_d100_exact total_fees Hn) as Ev.
  assert (Hg : get_value total_fees (PinTransaction.currency r)
               = Int total_fees) by (unfold get_value; now rewrite Hz).
  repeat split; auto.
  - unfold approve, answered, submitted, written, with_defaults.
    destruct (nonempty _); simpl; destruct (PinTransaction.date r);
      reflexivity.
  - intros Hnz. rewrite Hg, Ev. cbn [number_value].
    unfold Qeq, inject_Z. simpl. lia.
Qed.

(** *** The money helper *)

(** C7: [PinTransfer.value] returns the integer amount unchanged in a
    zero-decimal currency; in every other currency it returns the amount
    divided by 100 as a decimal with two places.  With the yen among the
    zero-decimal currencies and the Australian dollar not,
    [value(1000, "JPY")] is [1000] and [value(1000, "AUD")] is [10.00]. *)
Theorem value_is_in_major_units (t : PinTransfer.t) :
  (zero_decimal (PinTransfer.currency t) = true ->
   value t = Int (PinTransfer.amount t))
  /\ (zero_decimal (PinTransfer.currency t) = false ->
      exists d,
        value t = Decimal d
        /\ Dec.expo d = -2
        /\ (Dec.value d == PinTransfer.amount t # 100)%Q)
  /\ (zero_decimal "JPY" = true -> get_value 1000 "JPY" = Int 1000)
  /\ (zero_decimal "AUD" = false ->
      get_value 1000 "AUD" = Decimal (Dec.mk 1000 (-2))
      /\ (number_value (get_value 1000 "AUD") == 10)%Q
      /\ Dec.eqb (Dec.mk 1000 (-2)) (Dec.mk 10 0) = true).
Proof.
  unfold value, get_value. repeat split.
  - now intros ->.
  - intros ->. eexists. repeat split.
    unfold Dec.value. cbn [Dec.coeff Dec.expo].
    change (inject_Z 10 ^ (-2))%Q with (1 # 100)%Q.
    unfold Qeq, Qmult, inject_Z. simpl. lia.
  - now intros ->.
  - now rewrite H.
  - rewrite H. reflexivity.
Qed.

(** *** The recipient factory *)




(** ** Further properties of the models *)

(** *** [PinTransaction.save] *)

Lemma select_upsert_other {A} (i j : Z) (a : A) (rows : table A) :
  j <> i -> select j (upsert i a rows) = select j rows.
Proof.
  intros H. induction rows as [|[k b] rest IH]; simpl.
  - destruct (j =? i) eqn:E; [apply Z.eqb_eq in E; contradiction|reflexivity].
  - destruct (i =? k) eqn:E; simpl.
    + apply Z.eqb_eq in E. subst k.
      destruct (j =? i) eqn:E'; [apply Z.eqb_eq in E'; contradiction|].
      reflexivity.
    + destruct (j =? k); [reflexivity | exact IH].
Qed.

Lemma upsert_again {A} (i : Z) (a : A) (rows : table A) :
  upsert i a (upsert i a rows) = upsert i a rows.
Proof.
  induction rows as [|[k b] rest IH]; simpl.
  - now rewrite Z.eqb_refl.
  - destruct (i =? k) eqn:E; simpl.
    + now rewrite Z.eqb_refl.
    + now rewrite E, IH.
Qed.

Lemma save_returns (r : PinTransaction.t) (w : World) (st' : TxnState) :
  save (mkTxnState r w) = (Ok tt, st') ->
  save_accepts r = true /\ st' = mkTxnState (written r w) (commit r w).
Proof.
  intros H.
  destruct (save_world (mkTxnState r w)) as [(e & s & He & _) | [Hs Ha]];
    [congruence|].
  simpl in Hs, Ha. split; [exact Ha | congruence].
Qed.

(** Whenever [save] returns, the row it wrote has exactly one of the two
    tokens and an environment that is configured: the one of the object, or
    the default one when the object had none.  It keeps the date of the
    object, or takes the reading of the clock when there was none, and is
    found under its key, which is new when the object had none.  The rows
    under other keys, the other tables and the attributes that [save] does
    not set are as they were, and no request is sent. *)
Theorem save_writes_a_valid_row
  (r : PinTransaction.t) (w : World) (st' : TxnState) :
  save (mkTxnState r w) = (Ok tt, st') ->
  exists i,
    PinTransaction.id (self st') = Some i
    /\ match PinTransaction.id r with
       | Some k => i = k
       | None => select i (transactions w) = None
       end
    /\ select i (transactions (world st')) = Some (self st')
    /\ (forall j, j <> i ->
          select j (transactions (world st')) = select j (transactions w))
    /\ xorb (has_card (self st')) (has_customer (self st')) = true
    /\ configured cfg (PinTransaction.environment (self st')) = true
    /\ PinTransaction.environment (self st')
       = (if nonempty (PinTransaction.environment r)
          then PinTransaction.environment r
          else default_environment cfg)
    /\ PinTransaction.date (self st')
       = match PinTransaction.date r with
         | Some d => Some d
         | None => Some now
         end
    /\ PinTransaction.processed (self st') = PinTransaction.processed r
    /\ PinTransaction.succeeded (self st') = PinTransaction.succeeded r
    /\ PinTransaction.amount (self st') = PinTransaction.amount r
    /\ PinTransaction.card_token (self st') = PinTransaction.card_token r
    /\ PinTransaction.customer_token (self st')
       = PinTransaction.customer_token r
    /\ trace (world st') = (trace w ++ [SaveTransaction (self st')])%list
    /\ bank_accounts (world st') = bank_accounts w
    /\ recipients (world st') = recipients w.
Proof.
  intros H. apply save_returns in H as (Ha & ->).
  exists (row_id r w). cbn [self world].
  pose proof (written_tokens r w) as (T1 & T2 & _).
  pose proof (written_environment r w) as He.
  unfold save_accepts in Ha. apply andb_prop in Ha as (Hx & Hc).
  split; [reflexivity|]. split.
  { unfold row_id. destruct (PinTransaction.id r); [reflexivity|].
    apply next_id_fresh. }
  split; [unfold commit; cbn [transactions]; apply select_upsert|].
  split.
  { intros j Hj. unfold commit. cbn [transactions].
    now apply select_upsert_other. }
  split; [now rewrite T1, T2|].
  split; [now rewrite He|].
  split; [exact He|].
  assert (K : PinTransaction.date (written r w)
               = match PinTransaction.date r with
                 | Some d => Some d
                 | None => Some now
                 end
               /\ PinTransaction.processed (written r w)
                  = PinTransaction.processed r
               /\ PinTransaction.succeeded (written r w)
                  = PinTransaction.succeeded r
               /\ PinTransaction.amount (written r w)
                  = PinTransaction.amount r
               /\ PinTransaction.card_token (written r w)
                  = PinTransaction.card_token r
               /\ PinTransaction.customer_token (written r w)
                  = PinTransaction.customer_token r).
  { unfold written, with_defaults.
    destruct (nonempty (PinTransaction.environment r)); cbn;
      destruct (PinTransaction.date r) eqn:D; cbn; rewrite ?D;
      repeat split; reflexivity. }
  destruct K as (K1 & K2 & K3 & K4 & K5 & K6).
  repeat split; assumption || reflexivity.
Qed.

(** With exactly one token but an environment that is not configured,
    [save] raises the [PinError] that names the environment; nothing is
    written, and an object that had no environment keeps the default one it
    was given before the check. *)
Theorem save_rejects_an_unknown_environment
  (r : PinTransaction.t) (w : World) :
  xorb (has_card r) (has_customer r) = true ->
  configured cfg (resolved_environment r) = false ->
  save (mkTxnState r w)
  = (Raise (PinError ("Pin Environment '" ++ resolved_environment r
                      ++ "' does not exist")),
     mkTxnState
       (if nonempty (PinTransaction.environment r) then r
        else PinTransaction.set_environment (default_environment cfg) r)
       w).
Proof.
  intros Hx Hc. unfold resolved_environment in *.
  unfold save, bind, get, modify_self, modify, ret, raise. simpl.
  destruct (has_card r), (has_customer r); try discriminate; simpl;
    destruct (nonempty (PinTransaction.environment r)); simpl;
    rewrite Hc; reflexivity.
Qed.

(** Saving again an object that [save] has just written returns, leaves the
    object as it is and the table as it is: the row is replaced by itself. *)
Theorem save_twice_is_save_once
  (r : PinTransaction.t) (w : World) (st1 : TxnState) :
  save (mkTxnState r w) = (Ok tt, st1) ->
  exists st2,
    save st1 = (Ok tt, st2)
    /\ self st2 = self st1
    /\ transactions (world st2) = transactions (world st1).
Proof.
  intros H. apply save_returns in H as (Ha & ->).
  exists (mkTxnState (written r w) (commit (written r w) (commit r w))).
  split.
  - apply save_again; [apply written_stored | now rewrite written_accepts].
  - split; [reflexivity|].
    unfold commit at 1. cbn [transactions].
    rewrite (written_again (written r w) (commit r w) (written_stored r w)).
    replace (row_id (written r w) (commit r w)) with (row_id r w)
      by reflexivity.
    unfold commit. cbn [transactions]. apply upsert_again.
Qed.

(** *** The request of a charge *)

(** A dollar amount with two decimal places is sent as that many cents,
    exactly; a third decimal place is cut off, towards zero. *)
Theorem amount_is_sent_in_cents (d : Dec.t) :
  Z.abs (Dec.coeff d) * 100 < 10 ^ Dec.prec ->
  (Dec.expo d = -2 -> Dec.to_int (Dec.mul_100 d) = Dec.coeff d)
  /\ (Dec.expo d = -3 ->
      Dec.to_int (Dec.mul_100 d) = Z.quot (Dec.coeff d) 10).
Proof.
  intros H.
  assert (F : Dec.mul_100 d = Dec.mk (Dec.coeff d * 100) (Dec.expo d)).
  { unfold Dec.mul_100. apply dec_fix_small. cbn [Dec.coeff].
    rewrite Z.abs_mul. exact H. }
  rewrite F. unfold Dec.to_int. cbn [Dec.coeff Dec.expo].
  split; intros ->; cbn [Z.leb Z.compare Z.opp].
  - change (10 ^ 2) with 100. now rewrite Z.quot_mul.
  - change (10 ^ 3) with (10 * 100). rewrite Z.quot_mul_cancel_r; lia.
Qed.

(** The request carries the five attributes of the transaction and one
    token: the card token when it is set, whether or not there is a
    customer, and otherwise the token of the customer.  Without either the
    request cannot be built. *)
Theorem charge_request_has_one_token (r : PinTransaction.t) :
  (forall data, charge_payload r = Ok data ->
     lookup "email" data = Some (JStr (PinTransaction.email_address r))
     /\ lookup "description" data = Some (opt_str (PinTransaction.description r))
     /\ lookup "amount" data
        = Some (JInt (Dec.to_int (Dec.mul_100 (PinTransaction.amount r))))
     /\ lookup "currency" data = Some (JStr (PinTransaction.currency r))
     /\ lookup "ip_address" data = Some (JStr (PinTransaction.ip_address r))
     /\ List.length data = 6%nat)
  /\ (has_card r = true ->
      exists data,
        charge_payload r = Ok data
        /\ lookup "card_token" data = Some (opt_str (PinTransaction.card_token r))
        /\ lookup "customer_token" data = None)
  /\ (has_card r = false ->
      forall c, PinTransaction.customer_token r = Some c ->
      exists data,
        charge_payload r = Ok data
        /\ lookup "customer_token" data = Some (JStr (CustomerToken.token c))
        /\ lookup "card_token" data = None)
  /\ (has_card r = false -> PinTransaction.customer_token r = None ->
      charge_payload r = Raise AttributeError).
Proof.
  unfold charge_payload. repeat split.
  1-6: destruct (has_card r);
         [|destruct (PinTransaction.customer_token r); [|discriminate]];
         injection H as <-; reflexivity.
  - intros ->. eexists. repeat split.
  - intros -> c ->. eexists. repeat split.
  - now intros -> ->.
Qed.

(** *** [process_transaction] when something goes wrong *)

Lemma save_raises (r : PinTransaction.t) (w : World) e st' :
  save (mkTxnState r w) = (Raise e, st') ->
  (exists msg, e = PinError msg)
  /\ world st' = w
  /\ PinTransaction.processed (self st') = PinTransaction.processed r.
Proof.
  unfold save, bind, get, modify_self, modify, ret, raise, model_save. simpl.
  destruct (has_card r), (has_customer r); simpl;
    try (intros [= <- <-]; repeat split; eexists; reflexivity);
    destruct (nonempty (PinTransaction.environment r)); simpl;
    match goal with
    | |- context [configured cfg ?x] => destruct (configured cfg x)
    end; simpl;
    try (intros [= <- <-]; repeat split; eexists; reflexivity);
    destruct (PinTransaction.date r); simpl; discriminate.
Qed.

(** When the first [save] of [process_transaction] rejects the transaction,
    the [PinError] reaches the caller, nothing is written and nothing is
    sent; but the object stays marked as processed, so that a later call on
    it returns [None] and sends nothing, also after the tokens or the
    environment of the object are put right. *)
Theorem a_rejected_transaction_stays_marked
  (r : PinTransaction.t) (w : World) :
  PinTransaction.processed r = false ->
  save_accepts r = false ->
  exists msg st',
    process_transaction (mkTxnState r w) = (Raise (PinError msg), st')
    /\ world st' = w
    /\ PinTransaction.processed (self st') = true
    /\ forall f w',
         (forall x, PinTransaction.processed (f x)
                    = PinTransaction.processed x) ->
         process_transaction (mkTxnState (f (self st')) w')
         = (Ok JNull, mkTxnState (f (self st')) w').
Proof.
  intros Hp Ha.
  destruct (save_world (mkTxnState (PinTransaction.set_processed true r) w))
    as [(e & st' & He & Hw) | [_ Hacc]];
    [|simpl in Hacc; change (save_accepts r = true) in Hacc; congruence].
  pose proof (save_raises _ _ _ _ He) as ((msg & ->) & _ & Hpr).
  exists msg, st'. repeat split.
  - unfold process_transaction. unfold bind at 1, get. cbn [self]. rewrite Hp.
    unfold bind at 1, modify_self, modify. cbn [self world].
    unfold bind at 1. now rewrite He.
  - exact Hw.
  - exact Hpr.
  - intros f w' Hf. apply process_processed. cbn [self]. now rewrite Hf.
Qed.

Lemma bind_returns {S A B} (m : M S A) (k : A -> M S B) s a s' :
  m s = (Ok a, s') -> bind m k s = k a s'.
Proof. intros H. unfold bind. now rewrite H. Qed.

Lemma bind_raises {S A B} (m : M S A) (k : A -> M S B) s e s' :
  m s = (Raise e, s') -> bind m k s = (Raise e, s').
Proof. intros H. unfold bind. now rewrite H. Qed.

Lemma record_response_split (response : string * json) (s : TxnState) :
  record_response response s
  = bind (interpretation response)
      (fun _ => save ;;; st <- get ;; ret (PinTransaction.pin_response (self st)))
      s.
Proof.
  unfold record_response, interpretation.
  unfold bind at 1 5 6, modify_self, modify. cbn [fst snd].
  reflexivity.
Qed.

Section Kept.

Variable J : TxnState -> Prop.

Hypothesis J_assign :
  forall f st, careful f -> J st -> J (mkTxnState (f (self st)) (world st)).

Ltac careful := split; [intros x; repeat split; reflexivity | reflexivity].

Lemma kept_modify_self (f : PinTransaction.t -> PinTransaction.t) :
  careful f -> triple J (modify_self f) J.
Proof. intros Hf st Hst. now apply J_assign. Qed.

Ltac kept :=
  repeat first
    [ apply triple_ret | apply triple_raise | apply triple_lift
    | apply triple_get
    | apply kept_modify_self; careful
    | apply triple_keep; [|intro] ].

Lemma kept_interpret_error (j : json) : triple J (interpret_error j) J.
Proof.
  unfold interpret_error.
  apply triple_keep; [apply triple_lift | intros has_messages].
  apply triple_keep; [| intros _; kept].
  destruct has_messages; [| kept].
  do 3 (apply triple_keep; [apply triple_lift | intro]).
  match goal with |- context [if ?b then _ else _] => destruct b end; kept.
Qed.

Lemma kept_interpret_success (j : json) : triple J (interpret_success j) J.
Proof. unfold interpret_success. kept. Qed.

Lemma kept_interpretation (response : string * json) :
  triple J (interpretation response) J.
Proof.
  unfold interpretation.
  apply triple_keep; [kept|]. intros _.
  destruct (snd response); try (now kept);
    (apply triple_keep; [apply triple_lift | intros has_error;
       destruct has_error;
       [apply kept_interpret_error | apply kept_interpret_success]]).
Qed.

End Kept.

Lemma pending_assign (i : Z) (w : World) f st :
  careful f -> pending i w st ->
  pending i w (mkTxnState (f (self st)) (world st)).
Proof.
  intros (Hf & Hp) (Hw & Hi & Hpr & Hs & Ha).
  destruct (Hf (self st)) as (F1 & F2 & F3 & F4 & F5).
  unfold pending. cbn [self world].
  split; [exact Hw|]. split; [now rewrite F1|]. split; [now rewrite Hp|].
  split; [now apply stored_changed|].
  unfold save_accepts, resolved_environment, has_card, has_customer in *.
  now rewrite F3, F4, F5.
Qed.

Lemma record_response_outcome (i : Z) (w0 : World) (r0 : PinTransaction.t)
  (response : string * json) :
  pending i w0 (mkTxnState r0 w0) ->
  (exists e st',
     record_response response (mkTxnState r0 w0) = (Raise e, st')
     /\ pending i w0 st')
  \/ (exists r2,
        record_response response (mkTxnState r0 w0)
        = (Ok (PinTransaction.pin_response r2),
           mkTxnState r2 (commit r2 w0))
        /\ pending i w0 (mkTxnState r2 w0)).
Proof.
  intros P. rewrite record_response_split.
  pose proof (kept_interpretation (pending i w0) (pending_assign i w0)
                response _ P) as K.
  destruct (interpretation response (mkTxnState r0 w0))
    as [[u|e] [r2 w2]] eqn:E; cbn [snd] in K.
  - right. exists r2.
    destruct K as (Hw & Hi & Hpr & Hs & Ha). cbn [self world] in *. subst w2.
    split; [|exact (conj eq_refl (conj Hi (conj Hpr (conj Hs Ha))))].
    rewrite (bind_returns _ _ _ _ _ E).
    rewrite (bind_returns _ _ _ _ _ (save_again r2 w0 Hs Ha)).
    reflexivity.
  - left. exists e, (mkTxnState r2 w2).
    split; [apply (bind_raises _ _ _ _ _ E) | exact K].
Qed.

(** Once the charge request has left, whatever the gateway answers: the
    table holds, under the key of the transaction, a row that is marked as
    processed.  If [process_transaction] raises, the database is as the
    first [save] left it, so that nothing of the response is stored; if it
    returns, the row in the table is the object as it is in memory and the
    value returned is its [pin_response]. *)
Theorem a_sent_charge_stays_recorded
  (r : PinTransaction.t) (w : World) (data : payload) :
  PinTransaction.processed r = false ->
  save_accepts r = true ->
  charge_payload r = Ok data ->
  (exists row,
     select (row_id r w)
       (transactions (world (snd (process_transaction (mkTxnState r w)))))
     = Some row
     /\ PinTransaction.processed row = true)
  /\ (forall e st',
        process_transaction (mkTxnState r w) = (Raise e, st') ->
        world st' = awaiting r w data
        /\ select (row_id r w) (transactions (world st'))
           = Some (submitted r w))
  /\ (forall v st',
        process_transaction (mkTxnState r w) = (Ok v, st') ->
        v = PinTransaction.pin_response (self st')
        /\ select (row_id r w) (transactions (world st')) = Some (self st')
        /\ PinTransaction.processed (self st') = true).
Proof.
  intros Hp Ha Hd.
  rewrite (process_sends r w data Hp Ha Hd).
  destruct (submitted_fields r w) as (Hp' & _).
  destruct (submitted_stored r w Ha) as (St & Sa).
  assert (P : pending (row_id r w) (awaiting r w data)
                (mkTxnState (submitted r w) (awaiting r w data))).
  { exact (conj eq_refl (conj (submitted_id r w) (conj Hp' (conj St Sa)))). }
  destruct (charge_reply r data) as [text parsed | e0].
  - destruct (record_response_outcome _ _ _ (text, parsed) P)
      as [(e & st' & E & (Hw & _)) | (r2 & E & (_ & Hi & Hpr & Hs & _))];
      rewrite E; cbn [self world] in *.
    + split; [|split].
      * exists (submitted r w). cbn [snd]. rewrite Hw.
        split; [apply awaiting_row | exact Hp'].
      * intros e' st'' [= <- <-]. rewrite Hw.
        split; [reflexivity | apply awaiting_row].
      * intros v st'' [=].
    + assert (S2 : select (row_id r w)
                     (transactions (commit r2 (awaiting r w data)))
                   = Some r2).
      { rewrite <- (row_id_known r2 (awaiting r w data) (row_id r w) Hi).
        now apply commit_select. }
      split; [|split].
      * exists r2. cbn [snd world]. auto.
      * intros e' st'' [=].
      * intros v st'' [= <- <-]. cbn [self world]. auto.
  - split; [|split].
    + exists (submitted r w). cbn [snd world].
      split; [apply awaiting_row | exact Hp'].
    + intros e' st'' [= <- <-]. cbn [world].
      split; [reflexivity | apply awaiting_row].
    + intros v st'' [=].
Qed.

(** A parsed body that is JSON but not an object (a list, a string, a
    number, a boolean) has no [keys]: the [AttributeError] reaches the
    caller after the response text is assigned in memory, and the row in the
    table stays the one of the first [save]. *)
Theorem a_response_that_is_no_object_raises
  (r : PinTransaction.t) (w : World) (data : payload) (text : string)
  (parsed : json) :
  PinTransaction.processed r = false ->
  save_accepts r = true ->
  charge_payload r = Ok data ->
  charge_reply r data = Replied text parsed ->
  parsed <> JNull ->
  (forall o, parsed <> JObj o) ->
  process_transaction (mkTxnState r w)
  = (Raise AttributeError,
     mkTxnState (answered r w text) (awaiting r w data))
  /\ select (row_id r w) (transactions (awaiting r w data))
     = Some (submitted r w)
  /\ PinTransaction.pin_response_text (submitted r w)
     = PinTransaction.pin_response_text r.
Proof.
  intros Hp Ha Hd Hr Hn Ho.
  destruct (submitted_fields r w) as (_ & _ & _ & Ht).
  split; [|split; [apply awaiting_row | exact Ht]].
  rewrite (process_sends r w data Hp Ha Hd), Hr.
  rewrite record_response_split. apply bind_raises.
  unfold interpretation, bind, modify_self, modify, lift, in_keys.
  cbn [fst snd self world].
  destruct parsed; try reflexivity; [contradiction | now destruct (Ho members)].
Qed.

(** A response without an [error] key is taken for a success before its
    keys are read.  Without a [response] object the [KeyError] is raised at
    once; with one that has no [token] it is raised after [succeeded] is set
    on the object in memory.  In both cases the row in the table is the one
    of the first [save], with [succeeded] as it was. *)
Theorem an_incomplete_success_raises
  (r : PinTransaction.t) (w : World) (data : payload) (text : string)
  (o : list (string * json)) :
  PinTransaction.processed r = false ->
  save_accepts r = true ->
  charge_payload r = Ok data ->
  charge_reply r data = Replied text (JObj o) ->
  has_key "error" o = false ->
  select (row_id r w) (transactions (awaiting r w data))
  = Some (submitted r w)
  /\ PinTransaction.succeeded (submitted r w) = PinTransaction.succeeded r
  /\ (lookup "response" o = None ->
      process_transaction (mkTxnState r w)
      = (Raise (KeyError "response"),
         mkTxnState (answered r w text) (awaiting r w data)))
  /\ (forall d,
        lookup "response" o = Some (JObj d) ->
        lookup "token" d = None ->
        process_transaction (mkTxnState r w)
        = (Raise (KeyError "token"),
           mkTxnState (PinTransaction.set_succeeded true (answered r w text))
                      (awaiting r w data))
        /\ PinTransaction.succeeded
             (PinTransaction.set_succeeded true (answered r w text))
           = true).
Proof.
  intros Hp Ha Hd Hr He.
  destruct (submitted_fields r w) as (_ & Hs & _ & _).
  split; [apply awaiting_row|]. split; [exact Hs|].
  rewrite (process_sends r w data Hp Ha Hd), Hr.
  split.
  - intros Hn. apply record_response_raises.
    unfold interpret. rewrite He. run_interpret. now rewrite Hn.
  - intros d Hres Htok. split; [|reflexivity].
    apply record_response_raises.
    unfold interpret. rewrite He. run_interpret. rewrite Hres. cbn.
    now rewrite Htok.
Qed.

(** The fees of a success response are divided as an int: when
    [total_fees] is anything else than an int or a boolean (a JSON number
    with a fraction, a string, [null]), the division raises a [TypeError]
    after [succeeded] and the token are set on the object in memory, and
    nothing of the response is stored. *)
Theorem fees_that_are_no_int_raise
  (r : PinTransaction.t) (w : World) (data : payload) (text : string)
  (o d : list (string * json)) (token total_fees : json) :
  PinTransaction.processed r = false ->
  save_accepts r = true ->
  charge_payload r = Ok data ->
  charge_reply r data = Replied text (JObj o) ->
  has_key "error" o = false ->
  lookup "response" o = Some (JObj d) ->
  lookup "token" d = Some token ->
  lookup "total_fees" d = Some total_fees ->
  (forall n, total_fees <> JInt n) ->
  (forall b, total_fees <> JBool b) ->
  process_transaction (mkTxnState r w)
  = (Raise TypeError,
     mkTxnState
       (PinTransaction.set_transaction_token token
          (PinTransaction.set_succeeded true (answered r w text)))
       (awaiting r w data))
  /\ select (row_id r w) (transactions (awaiting r w data))
     = Some (submitted r w)
  /\ PinTransaction.succeeded (submitted r w) = PinTransaction.succeeded r.
Proof.
  intros Hp Ha Hd Hr He Hres Htok Hfee Hi Hb.
  destruct (submitted_fields r w) as (_ & Hs & _ & _).
  split; [|split; [apply awaiting_row | exact Hs]].
  rewrite (process_sends r w data Hp Ha Hd), Hr.
  apply record_response_raises.
  unfold interpret. rewrite He. run_interpret. rewrite Hres. cbn.
  rewrite Htok. cbn. rewrite Hfee. cbn.
  destruct total_fees; try reflexivity;
    [now destruct (Hb b) | now destruct (Hi n)].
Qed.

(** *** CustomerToken *)

(** [update_card] never gets to the gateway: the address of the request is
    built with the field [{1}] from a single argument, which is an
    [IndexError] (or the environment of the customer cannot be used, which
    is raised first).  No request is sent, and neither the object nor the
    database changes; [new_card_token] raises the same exception and never
    returns [True]. *)
Theorem update_card_never_updates (card_token : json) (st : CustomerState) :
  exists e,
    update_card card_token st = (Raise e, st)
    /\ new_card_token card_token st = (Raise e, st)
    /\ (forall env,
          PinEnvironment_init (CustomerToken.environment (this st)) = Ok env ->
          e = IndexError).
Proof.
  unfold new_card_token, update_card.
  destruct (PinEnvironment_init (CustomerToken.environment (this st)))
    as [env|e] eqn:E.
  - exists IndexError. unfold bind, get, lift, format_field. cbn.
    rewrite E. repeat split.
  - exists e. unfold bind, get, lift. cbn. rewrite E.
    repeat split. intros env [=].
Qed.



(** *** PinTransfer *)


(** *** A recipient and its transfers *)

Lemma bind_inv {S A B} (m : M S A) (k : A -> M S B) s b s' :
  bind m k s = (Ok b, s') ->
  exists a s1, m s = (Ok a, s1) /\ k a s1 = (Ok b, s').
Proof.
  unfold bind. destruct (m s) as [[a|e] s1]; [|discriminate].
  intros H. now exists a, s1.
Qed.

Lemma lift_inv {S A} (r : res A) (s : S) a s' :
  lift r s = (Ok a, s') -> r = Ok a /\ s' = s.
Proof. unfold lift. now intros [= -> ->]. Qed.

Lemma post_inv (env : PinEnvironment.t) path data w response w' :
  post env path data w = (Ok response, w') ->
  pin_post env path data = Replied (fst response) (snd response)
  /\ w' = sent path data w.
Proof.
  unfold post. destruct (pin_post env path data); [|discriminate].
  now intros [= <- <-].
Qed.

Lemma create_with_bank_account_returns
  (email account_name bsb number name : json) (w w' : World)
  (rc : PinRecipient.t) :
  create_with_bank_account email account_name bsb number name w
  = (Ok rc, w') ->
  PinRecipient.id rc = Some (next_id (recipients w))
  /\ select (next_id (recipients w)) (recipients w') = Some rc
  /\ PinRecipient.bank_account rc = Some (next_id (bank_accounts w))
  /\ posts (trace w') = S (posts (trace w)).
Proof.
  unfold create_with_bank_account. intros H.
  apply bind_inv in H as (env & s & H0 & H). apply lift_inv in H0 as (_ & ->).
  apply bind_inv in H as (response & s & H0 & H).
  apply post_inv in H0 as (_ & ->).
  apply bind_inv in H as (data & s & H0 & H). apply lift_inv in H0 as (_ & ->).
  apply bind_inv in H as (b & s & H0 & H). apply lift_inv in H0 as (_ & ->).
  apply bind_inv in H as (bank & s & H0 & H).
  unfold create_bank_account in H0. injection H0 as <- <-.
  apply bind_inv in H as (r & s & H0 & H). apply lift_inv in H0 as (Hr & ->).
  unfold create_recipient in H. injection H as <- <-.
  cbn [recipients trace sent bank_accounts PinRecipient.set_id PinRecipient.id
       PinRecipient.bank_account].
  split; [reflexivity|]. split; [apply select_upsert|]. split.
  - revert Hr. unfold recipient_of, and_then.
    destruct (getitem data "token"); [|discriminate].
    destruct (getitem data "email"); [|discriminate].
    destruct (getitem data "name"); [|discriminate].
    now intros [= <-].
  - rewrite !posts_app. cbn. lia.
Qed.

Lemma send_new_returns
  (amount description : json) (recipient : PinRecipient.t) (currency : json)
  (l l' : Ledger) (t : PinTransfer.t) :
  send_new amount description recipient currency l = (Ok t, l') ->
  PinTransfer.recipient t = PinRecipient.id recipient
  /\ PinTransfer.id t = Some (next_id (pin_transfers l))
  /\ select (next_id (pin_transfers l)) (pin_transfers l') = Some t
  /\ ledger_world l'
     = sent "/transfers"
         (transfer_payload amount description recipient currency)
         (ledger_world l)
  /\ customer_tokens l' = customer_tokens l
  /\ put_requests l' = put_requests l.
Proof.
  unfold send_new. intros H.
  apply bind_inv in H as (env & s & H0 & H). apply lift_inv in H0 as (_ & ->).
  apply bind_inv in H as (response & s & H0 & H).
  unfold in_world in H0.
  destruct (post env "/transfers" _ (ledger_world l)) as [o w1] eqn:P.
  injection H0 as -> <-. apply post_inv in P as (_ & ->).
  apply bind_inv in H as (data & s & H0 & H). apply lift_inv in H0 as (_ & ->).
  apply bind_inv in H as (r & s & H0 & H). apply lift_inv in H0 as (Hr & ->).
  unfold create_transfer in H. injection H as <- <-.
  cbn [pin_transfers ledger_world customer_tokens put_requests].
  split; [|split; [reflexivity|split; [apply select_upsert|auto]]].
  revert Hr. unfold transfer_of, and_then.
  destruct (getitem data "token"); [|discriminate].
  destruct (getitem data "status"); [|discriminate].
  destruct (getitem data "currency") as [cur|]; [|discriminate].
  destruct (getitem data "description"); [|discriminate].
  destruct (getitem data "amount") as [amt|]; [|discriminate].
  destruct (char_field cur); [|discriminate].
  destruct (integer_field amt); [|discriminate].
  now intros [= <-].
Qed.

(** A transfer sent to the recipient that [create_with_bank_account]
    returned refers to a row of the recipients: the one of that recipient,
    which still refers to its bank account.  The two calls send one request
    each, the second with the token of the recipient, and the transfer is a
    row of the transfers. *)
Theorem a_transfer_refers_to_its_recipient
  (email account_name bsb number name : json) (w w' : World)
  (rc : PinRecipient.t) (amount description currency : json)
  (customers : table CustomerToken.t) (transfers : table PinTransfer.t)
  (puts : list (string * payload)) (t : PinTransfer.t) (l' : Ledger) :
  create_with_bank_account email account_name bsb number name w
  = (Ok rc, w') ->
  send_new amount description rc currency
    (mkLedger w' customers transfers puts) = (Ok t, l') ->
  exists i j k,
    PinTransfer.recipient t = Some j
    /\ select j (recipients (ledger_world l')) = Some rc
    /\ PinRecipient.bank_account rc = Some i
    /\ (exists bank, select i (bank_accounts (ledger_world l')) = Some bank)
    /\ PinTransfer.id t = Some k
    /\ select k (pin_transfers l') = Some t
    /\ trace (ledger_world l')
       = (trace w'
          ++ [HttpPost "/transfers"
                [("amount", amount); ("description", description);
                 ("recipient", PinRecipient.token rc);
                 ("currency", currency)]])%list
    /\ posts (trace (ledger_world l')) = (posts (trace w) + 2)%nat.
Proof.
  intros Hc Hs.
  pose proof (create_with_bank_account_returns _ _ _ _ _ _ _ _ Hc)
    as (C1 & C2 & C3 & C4).
  pose proof (send_new_returns _ _ _ _ _ _ _ Hs) as (S1 & S2 & S3 & S4 & _).
  cbn [ledger_world pin_transfers] in S2, S3, S4.
  exists (next_id (bank_accounts w)), (next_id (recipients w)),
    (next_id transfers).
  rewrite S4. cbn [sent recipients bank_accounts trace].
  split; [now rewrite S1|]. split; [exact C2|]. split; [exact C3|].
  split.
  - revert Hc. unfold create_with_bank_account. intros H.
    apply bind_inv in H as (env & s & H0 & H).
    apply lift_inv in H0 as (_ & ->).
    apply bind_inv in H as (response & s & H0 & H).
    apply post_inv in H0 as (_ & ->).
    apply bind_inv in H as (data & s & H0 & H).
    apply lift_inv in H0 as (_ & ->).
    apply bind_inv in H as (b & s & H0 & H). apply lift_inv in H0 as (_ & ->).
    apply bind_inv in H as (bank & s & H0 & H).
    unfold create_bank_account in H0. injection H0 as <- <-.
    apply bind_inv in H as (r & s & H0 & H). apply lift_inv in H0 as (_ & ->).
    unfold create_recipient in H. injection H as _ <-.
    cbn [bank_accounts sent]. eexists. apply select_upsert.
  - split; [exact S2|]. split; [exact S3|]. split; [reflexivity|].
    rewrite posts_app, C4. cbn. lia.
Qed.

End Models.

(** ** The theorems at work on sample data *)

Lemma save_requires_exactly_one_token_witness :
  has_card Sample.no_token = has_customer Sample.no_token
  /\ (exists msg,
        save Sample.cfg Sample.clock (mkTxnState Sample.no_token Sample.empty)
        = (Raise (PinError msg), mkTxnState Sample.no_token Sample.empty))
  /\ xorb (has_card Sample.txn) (has_customer Sample.txn) = true.
Proof.
  split; [reflexivity|]. split.
  - apply (proj1 (save_requires_exactly_one_token
                    Sample.cfg Sample.clock Sample.no_token Sample.empty)).
    reflexivity.
  - apply (proj1 (proj2 (save_requires_exactly_one_token
                           Sample.cfg Sample.clock Sample.txn Sample.empty))
             (snd (save Sample.cfg Sample.clock
                     (mkTxnState Sample.txn Sample.empty)))
             eq_refl).
Defined.

Lemma process_transaction_idempotent_witness :
  PinTransaction.processed Sample.done = true
  /\ process_transaction Sample.cfg Sample.clock Sample.py_repr
       Sample.times_out (mkTxnState Sample.done Sample.empty)
     = (Ok JNull, mkTxnState Sample.done Sample.empty)
  /\ fst (process_transaction Sample.cfg Sample.clock Sample.py_repr
            Sample.times_out
            (snd (process_transaction Sample.cfg Sample.clock Sample.py_repr
                    Sample.times_out (mkTxnState Sample.txn Sample.empty))))
     = Ok JNull.
Proof.
  split; [reflexivity|]. split.
  - apply (proj1 (process_transaction_idempotent Sample.cfg Sample.clock
                    Sample.py_repr Sample.times_out
                    (mkTxnState Sample.done Sample.empty))).
    reflexivity.
  - destruct (proj2 (process_transaction_idempotent Sample.cfg Sample.clock
                       Sample.py_repr Sample.times_out
                       (mkTxnState Sample.txn Sample.empty))
                _ eq_refl) as (E & _).
    rewrite E. reflexivity.
Defined.

Lemma charge_is_recorded_before_it_is_sent_witness :
  PinTransaction.processed Sample.txn = false
  /\ save_accepts Sample.cfg Sample.txn = true
  /\ charge_payload Sample.txn = Ok (Sample.request "AUD")
  /\ charge_reply Sample.cfg Sample.times_out Sample.txn (Sample.request "AUD")
     = Failed (TransportError "timed out")
  /\ fst (process_transaction Sample.cfg Sample.clock Sample.py_repr
            Sample.times_out (mkTxnState Sample.txn Sample.empty))
     = Raise (TransportError "timed out").
Proof.
  do 4 (split; [reflexivity|]).
  destruct (charge_is_recorded_before_it_is_sent Sample.cfg Sample.clock
              Sample.py_repr Sample.times_out Sample.txn Sample.empty
              (Sample.request "AUD") eq_refl eq_refl eq_refl)
    as (_ & _ & H).
  destruct (H (TransportError "timed out") eq_refl) as (E & _).
  rewrite E. reflexivity.
Defined.

Lemma unparseable_response_is_a_failure_witness :
  PinTransaction.processed Sample.txn = false
  /\ save_accepts Sample.cfg Sample.txn = true
  /\ charge_payload Sample.txn = Ok (Sample.request "AUD")
  /\ charge_reply Sample.cfg (Sample.replies "<html>" JNull) Sample.txn
       (Sample.request "AUD")
     = Replied "<html>" JNull
  /\ fst (process_transaction Sample.cfg Sample.clock Sample.py_repr
            (Sample.replies "<html>" JNull)
            (mkTxnState Sample.txn Sample.empty))
     = Ok (JStr "Failure.").
Proof.
  do 4 (split; [reflexivity|]).
  destruct (unparseable_response_is_a_failure Sample.cfg Sample.clock
              Sample.py_repr (Sample.replies "<html>" JNull) Sample.txn
              Sample.empty (Sample.request "AUD") "<html>"
              eq_refl eq_refl eq_refl eq_refl)
    as (E & _).
  rewrite E. reflexivity.
Defined.

Lemma gateway_error_is_recorded_witness :
  PinTransaction.processed Sample.txn = false
  /\ save_accepts Sample.cfg Sample.txn = true
  /\ charge_payload Sample.txn = Ok (Sample.request "AUD")
  /\ (has_key "error" Sample.insufficient = true
      /\ lookup "messages" Sample.insufficient = None
      /\ lookup "error_description" Sample.insufficient
         = Some (JStr "Insufficient funds")
      /\ fst (process_transaction Sample.cfg Sample.clock Sample.py_repr
                (Sample.replies "{}" (JObj Sample.insufficient))
                (mkTxnState Sample.txn Sample.empty))
         = Ok (JStr "Failure: Insufficient funds"))
  /\ (has_key "error" Sample.invalid_card = true
      /\ lookup "message" [("param", JStr "card_token");
                           ("code", JStr "card_token_invalid");
                           ("message", JStr "Card token is invalid")]
         = Some (JStr "Card token is invalid")
      /\ fst (process_transaction Sample.cfg Sample.clock Sample.py_repr
                (Sample.replies "{}" (JObj Sample.invalid_card))
                (mkTxnState Sample.txn Sample.empty))
         = Ok (JStr "Failure: Card token is invalid"))
  /\ (has_key "error" Sample.no_message = true
      /\ lookup "message" [("code", JStr "card_declined")] = None
      /\ fst (process_transaction Sample.cfg Sample.clock Sample.py_repr
                (Sample.replies "{}" (JObj Sample.no_message))
                (mkTxnState Sample.txn Sample.empty))
         = Ok (PinTransaction.pin_response Sample.txn))
  /\ (has_key "error" (("charge_token", JStr "ch_9") :: Sample.no_messages)
      = true
      /\ lookup "messages" (("charge_token", JStr "ch_9") :: Sample.no_messages)
         = Some (JArr [])
      /\ getitem0 (JArr []) = Raise IndexError
      /\ fst (process_transaction Sample.cfg Sample.clock Sample.py_repr
                (Sample.replies "{}"
                   (JObj (("charge_token", JStr "ch_9")
                          :: Sample.no_messages)))
                (mkTxnState Sample.txn Sample.empty))
         = Raise IndexError
      /\ PinTransaction.transaction_token
           (self (snd (process_transaction Sample.cfg Sample.clock
                         Sample.py_repr
                         (Sample.replies "{}"
                            (JObj (("charge_token", JStr "ch_9")
                                   :: Sample.no_messages)))
                         (mkTxnState Sample.txn Sample.empty))))
         = JNull)
  /\ (has_key "error" [("error", JStr "invalid_resource");
                       ("messages", JArr [JStr "declined"])] = true
      /\ getitem0 (JArr [JStr "declined"]) = Ok (JStr "declined")
      /\ (forall m, JStr "declined" <> JObj m)
      /\ fst (process_transaction Sample.cfg Sample.clock Sample.py_repr
                (Sample.replies "{}"
                   (JObj [("error", JStr "invalid_resource");
                          ("messages", JArr [JStr "declined"])]))
                (mkTxnState Sample.txn Sample.empty))
         = Raise AttributeError)
  /\ (has_key "error" [("error", JStr "invalid_resource")] = true
      /\ lookup "messages" [("error", JStr "invalid_resource")] = None
      /\ lookup "error_description" [("error", JStr "invalid_resource")]
         = None
      /\ fst (process_transaction Sample.cfg Sample.clock Sample.py_repr
                (Sample.replies "{}"
                   (JObj [("error", JStr "invalid_resource")]))
                (mkTxnState Sample.txn Sample.empty))
         = Raise (KeyError "error_description")).
Proof.
  do 3 (split; [reflexivity|]). split; [|split; [|split; [|split; [|split]]]].
  - do 3 (split; [reflexivity|]).
    destruct (gateway_error_is_recorded Sample.cfg Sample.clock
                Sample.py_repr
                (Sample.replies "{}" (JObj Sample.insufficient)) Sample.txn
                Sample.empty (Sample.request "AUD") "{}" Sample.insufficient
                eq_refl eq_refl eq_refl eq_refl eq_refl)
      as (_ & H & _).
    destruct (H (JStr "Insufficient funds") eq_refl eq_refl)
      as ((E & _) & _).
    rewrite E. reflexivity.
  - do 2 (split; [reflexivity|]).
    destruct (gateway_error_is_recorded Sample.cfg Sample.clock
                Sample.py_repr
                (Sample.replies "{}" (JObj Sample.invalid_card)) Sample.txn
                Sample.empty (Sample.request "AUD") "{}" Sample.invalid_card
                eq_refl eq_refl eq_refl eq_refl eq_refl)
      as (H & _).
    destruct (H _ _ (JStr "Card token is invalid") eq_refl eq_refl)
      as ((E & _) & _).
    rewrite E. reflexivity.
  - do 2 (split; [reflexivity|]).
    destruct (gateway_error_is_recorded Sample.cfg Sample.clock
                Sample.py_repr
                (Sample.replies "{}" (JObj Sample.no_message)) Sample.txn
                Sample.empty (Sample.request "AUD") "{}" Sample.no_message
                eq_refl eq_refl eq_refl eq_refl eq_refl)
      as (_ & _ & H & _).
    destruct (H _ _ eq_refl eq_refl) as ((E & _) & _).
    rewrite E. reflexivity.
  - do 3 (split; [reflexivity|]).
    destruct (gateway_error_is_recorded Sample.cfg Sample.clock
                Sample.py_repr
                (Sample.replies "{}"
                   (JObj (("charge_token", JStr "ch_9")
                          :: Sample.no_messages)))
                Sample.txn Sample.empty (Sample.request "AUD") "{}"
                (("charge_token", JStr "ch_9") :: Sample.no_messages)
                eq_refl eq_refl eq_refl eq_refl eq_refl)
      as (_ & _ & _ & H & _).
    destruct (H (JArr []) IndexError eq_refl eq_refl) as (E & _ & Ht & _).
    rewrite E. split; [reflexivity|].
    cbn [snd self]. rewrite Ht. reflexivity.
  - do 2 (split; [reflexivity|]).
    assert (Hf : forall m, JStr "declined" <> JObj m)
      by (intros m; discriminate).
    split; [exact Hf|].
    destruct (gateway_error_is_recorded Sample.cfg Sample.clock
                Sample.py_repr
                (Sample.replies "{}"
                   (JObj [("error", JStr "invalid_resource");
                          ("messages", JArr [JStr "declined"])]))
                Sample.txn Sample.empty (Sample.request "AUD") "{}"
                [("error", JStr "invalid_resource");
                 ("messages", JArr [JStr "declined"])]
                eq_refl eq_refl eq_refl eq_refl eq_refl)
      as (_ & _ & _ & _ & H & _).
    destruct (H (JArr [JStr "declined"]) (JStr "declined") eq_refl eq_refl Hf)
      as (E & _).
    rewrite E. reflexivity.
  - do 3 (split; [reflexivity|]).
    destruct (gateway_error_is_recorded Sample.cfg Sample.clock
                Sample.py_repr
                (Sample.replies "{}"
                   (JObj [("error", JStr "invalid_resource")]))
                Sample.txn Sample.empty (Sample.request "AUD") "{}"
                [("error", JStr "invalid_resource")]
                eq_refl eq_refl eq_refl eq_refl eq_refl)
      as (_ & _ & _ & _ & _ & H & _).
    destruct (H eq_refl eq_refl) as (E & _).
    rewrite E. reflexivity.
Defined.

Lemma empty_messages_raise_witness :
  PinTransaction.processed Sample.txn = false
  /\ save_accepts Sample.cfg Sample.txn = true
  /\ charge_payload Sample.txn = Ok (Sample.request "AUD")
  /\ charge_reply Sample.cfg
       (Sample.replies "{}" (JObj Sample.no_messages)) Sample.txn
       (Sample.request "AUD")
     = Replied "{}" (JObj Sample.no_messages)
  /\ has_key "error" Sample.no_messages = true
  /\ lookup "messages" Sample.no_messages = Some (JArr [])
  /\ fst (process_transaction Sample.cfg Sample.clock Sample.py_repr
            (Sample.replies "{}" (JObj Sample.no_messages))
            (mkTxnState Sample.txn Sample.empty))
     = Raise IndexError.
Proof.
  do 6 (split; [reflexivity|]).
  destruct (empty_messages_raise Sample.cfg Sample.clock Sample.py_repr
              (Sample.replies "{}" (JObj Sample.no_messages)) Sample.txn
              Sample.empty (Sample.request "AUD") "{}" Sample.no_messages
              eq_refl eq_refl eq_refl eq_refl eq_refl eq_refl)
    as (E & _).
  rewrite E. reflexivity.
Defined.

Lemma sample_charged :
  charged Sample.charge (JStr "ch_123") 500 (JStr "Success!") Sample.details.
Proof.
  split; [reflexivity|].
  eexists _, Sample.card. repeat split; reflexivity.
Defined.

Lemma successful_charge_is_recorded_witness :
  PinTransaction.processed Sample.txn = false
  /\ save_accepts Sample.cfg Sample.txn = true
  /\ charge_payload Sample.txn = Ok (Sample.request "AUD")
  /\ charge_reply Sample.cfg (Sample.replies "{}" (JObj Sample.charge))
       Sample.txn (Sample.request "AUD")
     = Replied "{}" (JObj Sample.charge)
  /\ PinTransaction.currency Sample.txn = "AUD"
  /\ Z.abs 500 < 10 ^ Dec.prec
  /\ Dec.eqb (Dec.int_div_d100 500) (Dec.mk 500 (-2)) = true
  /\ exists row,
       snd (process_transaction Sample.cfg Sample.clock Sample.py_repr
              (Sample.replies "{}" (JObj Sample.charge))
              (mkTxnState Sample.txn Sample.empty))
       = mkTxnState row
           (commit Sample.cfg Sample.clock row
              (awaiting Sample.cfg Sample.clock Sample.txn Sample.empty
                 (Sample.request "AUD")))
       /\ PinTransaction.succeeded row = true
       /\ PinTransaction.fees row = Some (Dec.int_div_d100 500)
       /\ (Dec.value (Dec.int_div_d100 500) == 5)%Q.
Proof.
  do 7 (split; [reflexivity|]).
  destruct (successful_charge_is_recorded Sample.cfg Sample.clock
              Sample.py_repr (Sample.replies "{}" (JObj Sample.charge))
              Sample.txn Sample.empty (Sample.request "AUD") "{}"
              Sample.charge (JStr "ch_123") 500 (JStr "Success!")
              Sample.details eq_refl eq_refl eq_refl eq_refl sample_charged)
    as (row & E & _ & Hs & _ & Hf & Hv & _).
  exists row. rewrite E.
  split; [reflexivity|]. split; [exact Hs|]. split; [exact Hf|].
  rewrite (Hv eq_refl). reflexivity.
Defined.

Lemma fees_ignore_the_currency_witness :
  PinTransaction.processed Sample.yen = false
  /\ save_accepts Sample.cfg Sample.yen = true
  /\ charge_payload Sample.yen = Ok (Sample.request "JPY")
  /\ charge_reply Sample.cfg (Sample.replies "{}" (JObj Sample.charge))
       Sample.yen (Sample.request "JPY")
     = Replied "{}" (JObj Sample.charge)
  /\ Sample.only_yen (PinTransaction.currency Sample.yen) = true
  /\ Z.abs 500 < 10 ^ Dec.prec
  /\ exists row fees,
       snd (process_transaction Sample.cfg Sample.clock Sample.py_repr
              (Sample.replies "{}" (JObj Sample.charge))
              (mkTxnState Sample.yen Sample.empty))
       = mkTxnState row
           (commit Sample.cfg Sample.clock row
              (awaiting Sample.cfg Sample.clock Sample.yen Sample.empty
                 (Sample.request "JPY")))
       /\ PinTransaction.fees row = Some fees
       /\ (Dec.value fees == 5)%Q
       /\ get_value Sample.only_yen 500 "JPY" = Int 500.
Proof.
  do 6 (split; [reflexivity|]).
  destruct (fees_ignore_the_currency Sample.cfg Sample.clock Sample.py_repr
              (Sample.replies "{}" (JObj Sample.charge)) Sample.only_yen
              Sample.yen Sample.empty (Sample.request "JPY") "{}"
              Sample.charge (JStr "ch_123") 500 (JStr "Success!")
              Sample.details eq_refl eq_refl eq_refl eq_refl sample_charged
              eq_refl eq_refl)
    as (row & fees & E & _ & Hf & Hv & Hg & _).
  exists row, fees.
  split; [exact E|]. split; [exact Hf|]. split; [|exact Hg].
  rewrite Hv. reflexivity.
Defined.

Lemma value_is_in_major_units_witness :
  Sample.only_yen "JPY" = true
  /\ Sample.only_yen "AUD" = false
  /\ value Sample.only_yen (Sample.transfer "JPY") = Int 1000
  /\ (number_value (value Sample.only_yen (Sample.transfer "AUD")) == 10)%Q.
Proof.
  do 2 (split; [reflexivity|]).
  destruct (value_is_in_major_units Sample.only_yen (Sample.transfer "JPY"))
    as (Hj & _).
  destruct (value_is_in_major_units Sample.only_yen (Sample.transfer "AUD"))
    as (_ & Ha & _).
  split; [exact (Hj eq_refl)|].
  destruct (Ha eq_refl) as (d & -> & _ & Hd).
  cbn [number_value]. rewrite Hd. reflexivity.
Defined.


(** ** Where the code departs from the specification *)

(** C3 does not hold as the specification states it: here the response has
    an [error] key and a [messages] list whose first element has no
    [message]; the description ["Insufficient funds"] is not used and
    [pin_response] stays [None]. *)
Lemma error_without_message_is_not_described :
  has_key "error" Sample.no_message = true
  /\ lookup "messages" Sample.no_message
     = Some (JArr [JObj [("code", JStr "card_declined")]])
  /\ lookup "message" [("code", JStr "card_declined")] = None
  /\ lookup "error_description" Sample.no_message
     = Some (JStr "Insufficient funds")
  /\ PinTransaction.pin_response
       (self (snd (process_transaction Sample.cfg Sample.clock Sample.py_repr
                     (Sample.replies "{}" (JObj Sample.no_message))
                     (mkTxnState Sample.txn Sample.empty))))
     = JNull
  /\ PinTransaction.pin_response
       (self (snd (process_transaction Sample.cfg Sample.clock Sample.py_repr
                     (Sample.replies "{}" (JObj Sample.no_message))
                     (mkTxnState Sample.txn Sample.empty))))
     <> JStr "Failure: Insufficient funds".
Proof. repeat split; try reflexivity. discriminate. Qed.

(** C9 does not hold as stated: when [messages] is empty the exception is
    raised before the second [save], so the row in the table has no response
    text, although the object in memory has it. *)
Lemma response_text_is_not_written :
  fst (process_transaction Sample.cfg Sample.clock Sample.py_repr
         (Sample.replies "{}" (JObj Sample.no_messages))
         (mkTxnState Sample.txn Sample.empty))
  = Raise IndexError
  /\ PinTransaction.pin_response_text
       (self (snd (process_transaction Sample.cfg Sample.clock Sample.py_repr
                     (Sample.replies "{}" (JObj Sample.no_messages))
                     (mkTxnState Sample.txn Sample.empty))))
     = Some "{}"
  /\ exists row,
       select 1
         (transactions
            (world (snd (process_transaction Sample.cfg Sample.clock
                           Sample.py_repr
                           (Sample.replies "{}" (JObj Sample.no_messages))
                           (mkTxnState Sample.txn Sample.empty)))))
       = Some row
       /\ PinTransaction.processed row = true
       /\ PinTransaction.pin_response_text row = None
       /\ PinTransaction.pin_response_text row <> Some "{}".
Proof.
  split; [reflexivity|]. split; [reflexivity|].
  eexists. split; [reflexivity|]. repeat split. discriminate.
Qed.


Lemma save_writes_a_valid_row_witness :
  exists st',
    save Sample.cfg Sample.clock (mkTxnState Sample.txn Sample.empty)
    = (Ok tt, st')
    /\ PinTransaction.id (self st') = Some 1
    /\ select 1 (transactions (world st')) = Some (self st')
    /\ PinTransaction.environment (self st') = "test".
Proof.
  eexists. split; [reflexivity|].
  destruct (save_writes_a_valid_row Sample.cfg Sample.clock Sample.txn
              Sample.empty _ eq_refl)
    as (i & Hi & _ & Hrow & _ & _ & _ & Henv & _).
  assert (E : i = 1) by (cbn in Hi; now injection Hi).
  rewrite E in *.
  split; [exact Hi|]. split; [exact Hrow|]. exact Henv.
Defined.

Lemma save_rejects_an_unknown_environment_witness :
  xorb (has_card (PinTransaction.set_environment "staging" Sample.txn))
       (has_customer (PinTransaction.set_environment "staging" Sample.txn))
  = true
  /\ configured Sample.cfg
       (resolved_environment Sample.cfg
          (PinTransaction.set_environment "staging" Sample.txn))
     = false
  /\ save Sample.cfg Sample.clock
       (mkTxnState (PinTransaction.set_environment "staging" Sample.txn)
          Sample.empty)
     = (Raise (PinError "Pin Environment 'staging' does not exist"),
        mkTxnState (PinTransaction.set_environment "staging" Sample.txn)
          Sample.empty).
Proof.
  do 2 (split; [reflexivity|]).
  rewrite (save_rejects_an_unknown_environment Sample.cfg Sample.clock
             (PinTransaction.set_environment "staging" Sample.txn)
             Sample.empty eq_refl eq_refl).
  reflexivity.
Defined.

Lemma save_twice_is_save_once_witness :
  exists st1 st2,
    save Sample.cfg Sample.clock (mkTxnState Sample.txn Sample.empty)
    = (Ok tt, st1)
    /\ save Sample.cfg Sample.clock st1 = (Ok tt, st2)
    /\ self st2 = self st1
    /\ transactions (world st2) = transactions (world st1).
Proof.
  eexists.
  destruct (save_twice_is_save_once Sample.cfg Sample.clock Sample.txn
              Sample.empty _ eq_refl)
    as (st2 & H1 & H2 & H3).
  exists st2. split; [reflexivity|]. split; [exact H1|].
  split; [exact H2|exact H3].
Defined.

Lemma amount_is_sent_in_cents_witness :
  Z.abs 1999 * 100 < 10 ^ Dec.prec
  /\ Z.abs 19999 * 100 < 10 ^ Dec.prec
  /\ Dec.to_int (Dec.mul_100 (Dec.mk 1999 (-2))) = 1999
  /\ Dec.to_int (Dec.mul_100 (Dec.mk 19999 (-3))) = 1999
  /\ Dec.to_int (Dec.mul_100 (Dec.mk (-19999) (-3))) = -1999.
Proof.
  do 2 (split; [reflexivity|]).
  split; [|split].
  - exact (proj1 (amount_is_sent_in_cents (Dec.mk 1999 (-2)) eq_refl)
             eq_refl).
  - exact (proj2 (amount_is_sent_in_cents (Dec.mk 19999 (-3)) eq_refl)
             eq_refl).
  - exact (proj2 (amount_is_sent_in_cents (Dec.mk (-19999) (-3)) eq_refl)
             eq_refl).
Defined.

Lemma charge_request_has_one_token_witness :
  has_card Sample.txn = true
  /\ has_card Sample.no_token = false
  /\ PinTransaction.customer_token Sample.no_token = None
  /\ (exists data,
        charge_payload Sample.txn = Ok data
        /\ lookup "card_token" data = Some (JStr "card_abc")
        /\ lookup "customer_token" data = None
        /\ lookup "amount" data = Some (JInt 1000))
  /\ charge_payload Sample.no_token = Raise AttributeError.
Proof.
  do 3 (split; [reflexivity|]).
  destruct (charge_request_has_one_token Sample.txn)
    as (Hall & Hcard & _ & _).
  destruct (Hcard eq_refl) as (data & Hd & Hc & Hn).
  destruct (Hall data Hd) as (_ & _ & Ha & _).
  split.
  - exists data. split; [exact Hd|]. split; [exact Hc|].
    split; [exact Hn|exact Ha].
  - destruct (charge_request_has_one_token Sample.no_token)
      as (_ & _ & _ & Hnone).
    exact (Hnone eq_refl eq_refl).
Defined.

Lemma a_rejected_transaction_stays_marked_witness :
  PinTransaction.processed Sample.no_token = false
  /\ save_accepts Sample.cfg Sample.no_token = false
  /\ exists msg st',
       process_transaction Sample.cfg Sample.clock Sample.py_repr
         (Sample.replies "{}" (JObj Sample.charge))
         (mkTxnState Sample.no_token Sample.empty)
       = (Raise (PinError msg), st')
       /\ world st' = Sample.empty
       /\ PinTransaction.processed (self st') = true
       /\ process_transaction Sample.cfg Sample.clock Sample.py_repr
            (Sample.replies "{}" (JObj Sample.charge))
            (mkTxnState (PinTransaction.set_environment "live" (self st'))
               Sample.empty)
          = (Ok JNull,
             mkTxnState (PinTransaction.set_environment "live" (self st'))
               Sample.empty).
Proof.
  do 2 (split; [reflexivity|]).
  destruct (a_rejected_transaction_stays_marked Sample.cfg Sample.clock
              Sample.py_repr (Sample.replies "{}" (JObj Sample.charge))
              Sample.no_token Sample.empty eq_refl eq_refl)
    as (msg & st' & E & Hw & Hp & Hlater).
  exists msg, st'. split; [exact E|]. split; [exact Hw|].
  split; [exact Hp|].
  exact (Hlater (PinTransaction.set_environment "live") Sample.empty
           (fun x => eq_refl)).
Defined.

Lemma a_sent_charge_stays_recorded_witness :
  PinTransaction.processed Sample.txn = false
  /\ save_accepts Sample.cfg Sample.txn = true
  /\ charge_payload Sample.txn = Ok (Sample.request "AUD")
  /\ process_transaction Sample.cfg Sample.clock Sample.py_repr
       Sample.times_out (mkTxnState Sample.txn Sample.empty)
     = (Raise (TransportError "timed out"),
        mkTxnState (submitted Sample.cfg Sample.clock Sample.txn Sample.empty)
          (awaiting Sample.cfg Sample.clock Sample.txn Sample.empty
             (Sample.request "AUD")))
  /\ select 1
       (transactions
          (awaiting Sample.cfg Sample.clock Sample.txn Sample.empty
             (Sample.request "AUD")))
     = Some (submitted Sample.cfg Sample.clock Sample.txn Sample.empty)
  /\ exists row,
       select 1
         (transactions
            (world
               (snd (process_transaction Sample.cfg Sample.clock
                       Sample.py_repr
                       (Sample.replies "{}" (JObj Sample.no_messages))
                       (mkTxnState Sample.txn Sample.empty)))))
       = Some row
       /\ PinTransaction.processed row = true.
Proof.
  do 3 (split; [reflexivity|]).
  split; [reflexivity|].
  destruct (a_sent_charge_stays_recorded Sample.cfg Sample.clock
              Sample.py_repr Sample.times_out Sample.txn Sample.empty
              (Sample.request "AUD") eq_refl eq_refl eq_refl)
    as (_ & Hraise & _).
  destruct (Hraise _ _ eq_refl) as (_ & Hrow).
  split; [exact Hrow|].
  destruct (a_sent_charge_stays_recorded Sample.cfg Sample.clock
              Sample.py_repr (Sample.replies "{}" (JObj Sample.no_messages))
              Sample.txn Sample.empty
              (Sample.request "AUD") eq_refl eq_refl eq_refl)
    as (Hex & _).
  exact Hex.
Defined.

Lemma a_response_that_is_no_object_raises_witness :
  PinTransaction.processed Sample.txn = false
  /\ save_accepts Sample.cfg Sample.txn = true
  /\ charge_payload Sample.txn = Ok (Sample.request "AUD")
  /\ charge_reply Sample.cfg (Sample.replies "[]" (JArr [])) Sample.txn
       (Sample.request "AUD")
     = Replied "[]" (JArr [])
  /\ JArr [] <> JNull
  /\ (forall o, JArr [] <> JObj o)
  /\ fst (process_transaction Sample.cfg Sample.clock Sample.py_repr
            (Sample.replies "[]" (JArr []))
            (mkTxnState Sample.txn Sample.empty))
     = Raise AttributeError.
Proof.
  do 4 (split; [reflexivity|]).
  assert (H1 : JArr [] <> JNull) by discriminate.
  assert (H2 : forall o, JArr [] <> JObj o) by (intros o; discriminate).
  split; [exact H1|]. split; [exact H2|].
  destruct (a_response_that_is_no_object_raises Sample.cfg Sample.clock
              Sample.py_repr (Sample.replies "[]" (JArr [])) Sample.txn
              Sample.empty (Sample.request "AUD") "[]" (JArr [])
              eq_refl eq_refl eq_refl eq_refl H1 H2)
    as (E & _).
  rewrite E. reflexivity.
Defined.

Lemma an_incomplete_success_raises_witness :
  PinTransaction.processed Sample.txn = false
  /\ save_accepts Sample.cfg Sample.txn = true
  /\ charge_payload Sample.txn = Ok (Sample.request "AUD")
  /\ charge_reply Sample.cfg (Sample.replies "{}" (JObj [])) Sample.txn
       (Sample.request "AUD")
     = Replied "{}" (JObj [])
  /\ charge_reply Sample.cfg
       (Sample.replies "{}" (JObj Sample.charge_without_token)) Sample.txn
       (Sample.request "AUD")
     = Replied "{}" (JObj Sample.charge_without_token)
  /\ has_key "error" [] = false
  /\ has_key "error" Sample.charge_without_token = false
  /\ lookup "response" Sample.charge_without_token
     = Some (JObj [("total_fees", JInt 500)])
  /\ lookup "token" [("total_fees", JInt 500)] = None
  /\ fst (process_transaction Sample.cfg Sample.clock Sample.py_repr
            (Sample.replies "{}" (JObj []))
            (mkTxnState Sample.txn Sample.empty))
     = Raise (KeyError "response")
  /\ fst (process_transaction Sample.cfg Sample.clock Sample.py_repr
            (Sample.replies "{}" (JObj Sample.charge_without_token))
            (mkTxnState Sample.txn Sample.empty))
     = Raise (KeyError "token")
  /\ PinTransaction.succeeded
       (self (snd (process_transaction Sample.cfg Sample.clock
                     Sample.py_repr
                     (Sample.replies "{}" (JObj Sample.charge_without_token))
                     (mkTxnState Sample.txn Sample.empty))))
     = true.
Proof.
  do 9 (split; [reflexivity|]).
  destruct (an_incomplete_success_raises Sample.cfg Sample.clock
              Sample.py_repr (Sample.replies "{}" (JObj [])) Sample.txn
              Sample.empty (Sample.request "AUD") "{}" []
              eq_refl eq_refl eq_refl eq_refl eq_refl)
    as (_ & _ & Hnone & _).
  destruct (an_incomplete_success_raises Sample.cfg Sample.clock
              Sample.py_repr
              (Sample.replies "{}" (JObj Sample.charge_without_token))
              Sample.txn Sample.empty (Sample.request "AUD") "{}"
              Sample.charge_without_token
              eq_refl eq_refl eq_refl eq_refl eq_refl)
    as (_ & _ & _ & Htoken).
  destruct (Htoken _ eq_refl eq_refl) as (E & Hs).
  rewrite (Hnone eq_refl), E.
  split; [reflexivity|]. split; [reflexivity|]. exact Hs.
Defined.

Lemma fees_that_are_no_int_raise_witness :
  PinTransaction.processed Sample.txn = false
  /\ save_accepts Sample.cfg Sample.txn = true
  /\ charge_payload Sample.txn = Ok (Sample.request "AUD")
  /\ charge_reply Sample.cfg
       (Sample.replies "{}" (JObj Sample.charge_with_text_fees)) Sample.txn
       (Sample.request "AUD")
     = Replied "{}" (JObj Sample.charge_with_text_fees)
  /\ has_key "error" Sample.charge_with_text_fees = false
  /\ (exists d,
        lookup "response" Sample.charge_with_text_fees = Some (JObj d)
        /\ lookup "token" d = Some (JStr "ch_123")
        /\ lookup "total_fees" d = Some (JStr "500"))
  /\ (forall n, JStr "500" <> JInt n)
  /\ (forall b, JStr "500" <> JBool b)
  /\ fst (process_transaction Sample.cfg Sample.clock Sample.py_repr
            (Sample.replies "{}" (JObj Sample.charge_with_text_fees))
            (mkTxnState Sample.txn Sample.empty))
     = Raise TypeError.
Proof.
  do 5 (split; [reflexivity|]).
  split; [eexists; do 2 (split; [reflexivity|]); reflexivity|].
  assert (H1 : forall n, JStr "500" <> JInt n) by (intros n; discriminate).
  assert (H2 : forall b, JStr "500" <> JBool b) by (intros b; discriminate).
  split; [exact H1|]. split; [exact H2|].
  destruct (fees_that_are_no_int_raise Sample.cfg Sample.clock
              Sample.py_repr
              (Sample.replies "{}" (JObj Sample.charge_with_text_fees))
              Sample.txn Sample.empty (Sample.request "AUD") "{}"
              Sample.charge_with_text_fees _ (JStr "ch_123") (JStr "500")
              eq_refl eq_refl eq_refl eq_refl eq_refl eq_refl eq_refl
              eq_refl H1 H2)
    as (E & _).
  rewrite E. reflexivity.
Defined.

Lemma update_card_never_updates_witness :
  PinEnvironment_init Sample.cfg (CustomerToken.environment Sample.holder)
  = Ok (PinEnvironment.mk "test")
  /\ update_card Sample.cfg Sample.py_repr
       (Sample.replies "{}" Sample.customer) (JStr "card_abc")
       (mkCustomerState Sample.holder Sample.nothing)
     = (Raise IndexError, mkCustomerState Sample.holder Sample.nothing)
  /\ new_card_token Sample.cfg Sample.py_repr
       (Sample.replies "{}" Sample.customer) (JStr "card_abc")
       (mkCustomerState Sample.holder Sample.nothing)
     = (Raise IndexError, mkCustomerState Sample.holder Sample.nothing).
Proof.
  split; [reflexivity|].
  destruct (update_card_never_updates Sample.cfg Sample.py_repr
              (Sample.replies "{}" Sample.customer) (JStr "card_abc")
              (mkCustomerState Sample.holder Sample.nothing))
    as (e & Hu & Hn & He).
  rewrite Hu, Hn, (He _ eq_refl). split; reflexivity.
Defined.



Lemma a_transfer_refers_to_its_recipient_witness :
  fst (create_with_bank_account Sample.cfg Sample.pays
         (JStr "payee@example.com") (JStr "Payee Pty") (JStr "123456")
         (JStr "000123789") (JStr "Payee") Sample.empty)
  = Ok Sample.payee
  /\ fst (send_new Sample.cfg Sample.pays Sample.char_field
            Sample.integer_field (JInt 1000) (JStr "Payout") Sample.payee
            (JStr "AUD")
            (mkLedger
               (snd (create_with_bank_account Sample.cfg Sample.pays
                       (JStr "payee@example.com") (JStr "Payee Pty")
                       (JStr "123456") (JStr "000123789") (JStr "Payee")
                       Sample.empty))
               [] [] []))
     = Ok (PinTransfer.mk (Some 1) (JStr "tfer_1") (JStr "succeeded") "AUD"
             (JStr "Payout") 1000 (Some 1) (Some "{}"))
  /\ select 1
       (recipients
          (ledger_world
             (snd (send_new Sample.cfg Sample.pays Sample.char_field
                     Sample.integer_field (JInt 1000) (JStr "Payout")
                     Sample.payee (JStr "AUD")
                     (mkLedger
                        (snd (create_with_bank_account Sample.cfg
                                Sample.pays (JStr "payee@example.com")
                                (JStr "Payee Pty") (JStr "123456")
                                (JStr "000123789") (JStr "Payee")
                                Sample.empty))
                        [] [] [])))))
     = Some Sample.payee
  /\ posts
       (trace
          (ledger_world
             (snd (send_new Sample.cfg Sample.pays Sample.char_field
                     Sample.integer_field (JInt 1000) (JStr "Payout")
                     Sample.payee (JStr "AUD")
                     (mkLedger
                        (snd (create_with_bank_account Sample.cfg
                                Sample.pays (JStr "payee@example.com")
                                (JStr "Payee Pty") (JStr "123456")
                                (JStr "000123789") (JStr "Payee")
                                Sample.empty))
                        [] [] [])))))
     = 2%nat.
Proof.
  do 2 (split; [reflexivity|]).
  destruct (a_transfer_refers_to_its_recipient Sample.cfg Sample.pays
              Sample.char_field Sample.integer_field
              (JStr "payee@example.com") (JStr "Payee Pty") (JStr "123456")
              (JStr "000123789") (JStr "Payee") Sample.empty
              (snd (create_with_bank_account Sample.cfg Sample.pays
                      (JStr "payee@example.com") (JStr "Payee Pty")
                      (JStr "123456") (JStr "000123789") (JStr "Payee")
                      Sample.empty))
              Sample.payee (JInt 1000) (JStr "Payout") (JStr "AUD")
              [] [] []
              (PinTransfer.mk (Some 1) (JStr "tfer_1") (JStr "succeeded")
                 "AUD" (JStr "Payout") 1000 (Some 1) (Some "{}"))
              (snd (send_new Sample.cfg Sample.pays Sample.char_field
                      Sample.integer_field (JInt 1000) (JStr "Payout")
                      Sample.payee (JStr "AUD")
                      (mkLedger
                         (snd (create_with_bank_account Sample.cfg
                                 Sample.pays (JStr "payee@example.com")
                                 (JStr "Payee Pty") (JStr "123456")
                                 (JStr "000123789") (JStr "Payee")
                                 Sample.empty))
                         [] [] [])))
              eq_refl eq_refl)
    as (i & j & k & Hr & Hsel & _ & _ & _ & _ & _ & Hposts).
  assert (Ej : j = 1) by (cbn in Hr; now injection Hr).
  subst j.
  split; [exact Hsel|exact Hposts].
Defined.
